(** * The São Paulo city-council spider: a shallow embedding

    Source: [assessorai_crawler/spiders/sp-sao-paulo.py], class
    [SpSaoPauloSpider].  The spider pages through the council's search
    API, turns every listed proposition into a [ProposicaoItem] and asks
    for the next page while there is one and the item limit allows it.

    Python values are embedded as follows.
    - [str] is [string], held as UTF-8 bytes.  [str.strip] and
      [str.lower], which follow the Unicode tables, are taken from a
      [Library] wherever the spider applies them to the texts of a
      record; [PyStr] holds their ASCII forms, which serve [int(s)] and
      the library the examples run on.  [repr] of a text is written for
      ASCII text.
    - [int] is [Z]; the bound Python puts on the number of digits that
      [int(s)] and [str(n)] accept is not modelled.
    - A decoded JSON document is [json]; numbers are integers (the
      listing's numeric fields are), floats are not modelled.
    - A [dict] whose order shows in the output (the query parameters, a
      JSON object) is an association list in insertion order.
    - A raised exception is the [Raise] case of [result].
    - The generator [parse] is run to its end: the list of what it
      yielded, how it ended, and the spider's attributes afterwards. *)

From Stdlib Require Import ZArith List String Ascii Bool Lia.
From Stdlib Require Import DecimalString DecimalZ DecimalPos DecimalFacts.
Import ListNotations.

Local Open Scope string_scope.
Local Open Scope Z_scope.

(** ** Python's string built-ins *)

Module PyStr.

(** [str.isspace] on one ASCII character: tab, line feed, vertical
    tab, form feed, carriage return, the four separators 28..31 and
    the space. *)
Definition is_space (c : ascii) : bool :=
  let n := nat_of_ascii c in
  ((9 <=? n) && (n <=? 13) || (28 <=? n) && (n <=? 32))%nat.

Fixpoint lstrip (s : string) : string :=
  match s with
  | EmptyString => EmptyString
  | String c r => if is_space c then lstrip r else s
  end.

Fixpoint rstrip (s : string) : string :=
  match s with
  | EmptyString => EmptyString
  | String c r =>
      match rstrip r with
      | EmptyString => if is_space c then EmptyString else String c EmptyString
      | r' => String c r'
      end
  end.

(** [s.strip()] *)
Definition strip (s : string) : string := rstrip (lstrip s).

Definition lower_char (c : ascii) : ascii :=
  let n := nat_of_ascii c in
  if ((65 <=? n) && (n <=? 90))%nat then ascii_of_nat (n + 32) else c.

(** [s.lower()] *)
Fixpoint lower (s : string) : string :=
  match s with
  | EmptyString => EmptyString
  | String c r => String (lower_char c) (lower r)
  end.

(** [s.replace(old, new)] for a one-character [old]. *)
Fixpoint replace (old : ascii) (new : string) (s : string) : string :=
  match s with
  | EmptyString => EmptyString
  | String c r =>
      if Ascii.eqb c old then new ++ replace old new r
      else String c (replace old new r)
  end.

(** [sep.join(parts)] *)
Fixpoint join (sep : string) (parts : list string) : string :=
  match parts with
  | [] => EmptyString
  | [p] => p
  | p :: rest => p ++ sep ++ join sep rest
  end.

(** [str(n)] for an [int]. *)
Definition of_Z (n : Z) : string := NilZero.string_of_int (Z.to_int n).

Definition is_digit (c : ascii) : bool :=
  let n := nat_of_ascii c in ((48 <=? n) && (n <=? 57))%nat.

Definition digit_val (c : ascii) : Z := Z.of_nat (nat_of_ascii c) - 48.

(** The digits of a decimal literal, most significant first; an
    underscore may stand between two digits. *)
Fixpoint digits (s : string) (acc : Z) (after_underscore : bool) : option Z :=
  match s with
  | EmptyString => if after_underscore then None else Some acc
  | String c r =>
      if is_digit c then digits r (10 * acc + digit_val c) false
      else if Ascii.eqb c "_" then
             if after_underscore then None else digits r acc true
      else None
  end.

Definition unsigned (s : string) : option Z :=
  match s with
  | EmptyString => None
  | String c _ => if is_digit c then digits s 0 false else None
  end.

(** [int(s)] for a [str]: surrounding whitespace, an optional sign,
    decimal digits.  [None] is [ValueError]. *)
Definition to_Z (s : string) : option Z :=
  match strip s with
  | EmptyString => None
  | String c r =>
      if Ascii.eqb c "-" then option_map Z.opp (unsigned r)
      else if Ascii.eqb c "+" then unsigned r
      else unsigned (String c r)
  end.

(** The first character is not whitespace. *)
Definition starts_clean (s : string) : bool :=
  match s with
  | EmptyString => true
  | String c _ => negb (is_space c)
  end.

Definition all_digits (s : string) : Prop :=
  forall c, In c (list_ascii_of_string s) -> is_digit c = true.

End PyStr.

(** ** hashlib.md5

    RFC 1321 on 32-bit words held in [Z] with the wrap-around written
    out; a message is the list of its bytes. *)

Module MD5.

Definition mask32 : Z := 4294967295.

Definition add32 (x y : Z) : Z := Z.land (x + y) mask32.

Definition not32 (x : Z) : Z := Z.lxor x mask32.

Definition rotl32 (x n : Z) : Z :=
  Z.land (Z.lor (Z.shiftl x n) (Z.shiftr x (32 - n))) mask32.

Definition shifts : list Z :=
  [7; 12; 17; 22; 7; 12; 17; 22; 7; 12; 17; 22; 7; 12; 17; 22;
   5; 9; 14; 20; 5; 9; 14; 20; 5; 9; 14; 20; 5; 9; 14; 20;
   4; 11; 16; 23; 4; 11; 16; 23; 4; 11; 16; 23; 4; 11; 16; 23;
   6; 10; 15; 21; 6; 10; 15; 21; 6; 10; 15; 21; 6; 10; 15; 21].

(** [K i = floor (2^32 * abs (sin (i + 1)))] *)
Definition K : list Z :=
  [3614090360; 3905402710; 606105819; 3250441966;
   4118548399; 1200080426; 2821735955; 4249261313;
   1770035416; 2336552879; 4294925233; 2304563134;
   1804603682; 4254626195; 2792965006; 1236535329;
   4129170786; 3225465664; 643717713; 3921069994;
   3593408605; 38016083; 3634488961; 3889429448;
   568446438; 3275163606; 4107603335; 1163531501;
   2850285829; 4243563512; 1735328473; 2368359562;
   4294588738; 2272392833; 1839030562; 4259657740;
   2763975236; 1272893353; 4139469664; 3200236656;
   681279174; 3936430074; 3572445317; 76029189;
   3654602809; 3873151461; 530742520; 3299628645;
   4096336452; 1126891415; 2878612391; 4237533241;
   1700485571; 2399980690; 4293915773; 2240044497;
   1873313359; 4264355552; 2734768916; 1309151649;
   4149444226; 3174756917; 718787259; 3951481745].

(** [n] bytes of [x], least significant first. *)
Fixpoint le_bytes (n : nat) (x : Z) : list Z :=
  match n with
  | O => []
  | S m => Z.land x 255 :: le_bytes m (Z.shiftr x 8)
  end.

Fixpoint le_word (bytes : list Z) : Z :=
  match bytes with
  | [] => 0
  | b :: r => Z.lor b (Z.shiftl (le_word r) 8)
  end.

(** The message, one 1 bit, zeros up to 56 modulo 64 bytes, and the
    length in bits on 64 bits. *)
Definition pad (msg : list Z) : list Z :=
  let len := Z.of_nat (List.length msg) in
  (msg ++ [128] ++ repeat 0 (Z.to_nat ((55 - len) mod 64))
       ++ le_bytes 8 (Z.land (8 * len) 18446744073709551615))%list.

(** The sixteen words of a 64-byte block. *)
Fixpoint words (n : nat) (block : list Z) : list Z :=
  match n with
  | O => []
  | S m => le_word (firstn 4 block) :: words m (skipn 4 block)
  end.

Definition state : Type := (Z * Z * Z * Z)%type.

Definition step (M : list Z) (st : state) (i : nat) : state :=
  let '(a, b, c, d) := st in
  let iz := Z.of_nat i in
  let '(f, g) :=
    if (i <? 16)%nat then
      (Z.lor (Z.land b c) (Z.land (not32 b) d), iz)
    else if (i <? 32)%nat then
      (Z.lor (Z.land d b) (Z.land (not32 d) c), (5 * iz + 1) mod 16)
    else if (i <? 48)%nat then
      (Z.lxor (Z.lxor b c) d, (3 * iz + 5) mod 16)
    else
      (Z.lxor c (Z.lor b (not32 d)), (7 * iz) mod 16) in
  let f' := add32 (add32 (add32 f a) (nth i K 0)) (nth (Z.to_nat g) M 0) in
  (d, add32 b (rotl32 f' (nth i shifts 0)), b, c).

Definition compress (h : state) (block : list Z) : state :=
  let '(ha, hb, hc, hd) := h in
  let '(a, b, c, d) := fold_left (step (words 16 block)) (seq 0 64) h in
  (add32 ha a, add32 hb b, add32 hc c, add32 hd d).

Fixpoint blocks (fuel : nat) (bytes : list Z) (h : state) : state :=
  match fuel, bytes with
  | S f, _ :: _ => blocks f (skipn 64 bytes) (compress h (firstn 64 bytes))
  | _, _ => h
  end.

Definition init : state := (1732584193, 4023233417, 2562383102, 271733878).

(** [hashlib.md5(msg).digest()] *)
Definition digest (msg : list Z) : list Z :=
  let p := pad msg in
  let '(a, b, c, d) := blocks (List.length p) p init in
  (le_bytes 4 a ++ le_bytes 4 b ++ le_bytes 4 c ++ le_bytes 4 d)%list.

Definition hex_char (n : Z) : ascii :=
  ascii_of_nat (Z.to_nat (if n <? 10 then 48 + n else 87 + n)).

Fixpoint hex (bytes : list Z) : string :=
  match bytes with
  | [] => EmptyString
  | b :: r => String (hex_char (Z.shiftr b 4)) (String (hex_char (Z.land b 15)) (hex r))
  end.

(** [s.encode('utf-8')]: the string is held in UTF-8 already. *)
Definition encode (s : string) : list Z :=
  map (fun c => Z.of_nat (nat_of_ascii c)) (list_ascii_of_string s).

(** [hashlib.md5(s.encode('utf-8')).hexdigest()] *)
Definition hexdigest (s : string) : string := hex (digest (encode s)).

End MD5.

(** ** Python values and exceptions *)

(** What [json.loads] returns. *)
#[warnings="-register-all"]
Inductive json : Type :=
| JNull
| JBool (b : bool)
| JInt (n : Z)
| JStr (s : string)
| JList (items : list json)
| JDict (fields : list (string * json)).

Inductive exn : Type :=
| JSONDecodeError
| AttributeError
| TypeError
| ValueError.

Inductive result (A : Type) : Type :=
| Ok (a : A)
| Raise (e : exn).

Arguments Ok {A} a.
Arguments Raise {A} e.

Definition bind {A B : Type} (m : result A) (k : A -> result B) : result B :=
  match m with
  | Ok a => k a
  | Raise e => Raise e
  end.

Notation "x <- m ;; k" := (bind m (fun x => k))
  (at level 61, m at next level, right associativity).

(** The elements of a list through a function that may raise, left to
    right, as a list comprehension evaluates them. *)
Fixpoint traverse {A B : Type} (f : A -> result B) (l : list A) : result (list B) :=
  match l with
  | [] => Ok []
  | a :: r => b <- f a ;; bs <- traverse f r ;; Ok (b :: bs)
  end.

Module Py.

Definition quote : ascii := "039"%char.
Definition dquote : ascii := "034"%char.
Definition backslash : ascii := "092"%char.

Fixpoint contains (c : ascii) (s : string) : bool :=
  match s with
  | EmptyString => false
  | String a r => Ascii.eqb a c || contains c r
  end.

Definition hex2 (n : nat) : string :=
  String (MD5.hex_char (Z.of_nat (n / 16)))
    (String (MD5.hex_char (Z.of_nat (n mod 16))) EmptyString).

Fixpoint escape (q : ascii) (s : string) : string :=
  match s with
  | EmptyString => EmptyString
  | String c r =>
      let n := nat_of_ascii c in
      (if Ascii.eqb c q || Ascii.eqb c backslash then String backslash (String c EmptyString)
       else if (n =? 9)%nat then String backslash "t"
       else if (n =? 10)%nat then String backslash "n"
       else if (n =? 13)%nat then String backslash "r"
       else if (n <? 32)%nat || (n =? 127)%nat then String backslash ("x" ++ hex2 n)
       else String c EmptyString) ++ escape q r
  end.

(** [repr(s)] for a [str]: single quotes, unless the text has a single
    quote and no double quote. *)
Definition repr_str (s : string) : string :=
  let q := if contains quote s && negb (contains dquote s) then dquote else quote in
  String q (escape q s ++ String q EmptyString).

(** [repr(v)] *)
Fixpoint repr (v : json) : string :=
  match v with
  | JNull => "None"
  | JBool true => "True"
  | JBool false => "False"
  | JInt n => PyStr.of_Z n
  | JStr s => repr_str s
  | JList items => "[" ++ PyStr.join ", " (map repr items) ++ "]"
  | JDict fields =>
      "{" ++ PyStr.join ", "
               (map (fun kv => let '(k, x) := kv in repr_str k ++ ": " ++ repr x) fields)
          ++ "}"
  end.

(** [str(v)], which is also what an f-string and [str.format] put in
    place of [v]. *)
Definition str (v : json) : string :=
  match v with
  | JStr s => s
  | _ => repr v
  end.

(** Truth value of [v] in a condition. *)
Definition truthy (v : json) : bool :=
  match v with
  | JNull => false
  | JBool b => b
  | JInt n => negb (n =? 0)
  | JStr s => negb (String.eqb s EmptyString)
  | JList items => match items with [] => false | _ => true end
  | JDict fields => match fields with [] => false | _ => true end
  end.

(** A [dict] in insertion order. *)
Fixpoint lookup {V : Type} (k : string) (d : list (string * V)) : option V :=
  match d with
  | [] => None
  | (k', x) :: r => if String.eqb k' k then Some x else lookup k r
  end.

(** [d[k] = x]: the value is replaced where the key stands, a new key
    goes to the end. *)
Fixpoint store {V : Type} (k : string) (x : V) (d : list (string * V)) : list (string * V) :=
  match d with
  | [] => [(k, x)]
  | (k', y) :: r => if String.eqb k' k then (k', x) :: r else (k', y) :: store k x r
  end.

(** [v.get(k, default)]: only a [dict] has the method. *)
Definition get (v : json) (k : string) (default : json) : result json :=
  match v with
  | JDict fields =>
      match lookup k fields with
      | Some x => Ok x
      | None => Ok default
      end
  | _ => Raise AttributeError
  end.

(** [v.strip()]: only a [str] has the method; [str_strip] is the
    built-in on strings. *)
Definition strip (str_strip : string -> string) (v : json) : result string :=
  match v with
  | JStr s => Ok (str_strip s)
  | _ => Raise AttributeError
  end.

(** What [for x in v] runs over: the elements of a list, the
    characters of a string, the keys of a dict; nothing else is
    iterable. *)
Definition iter (v : json) : result (list json) :=
  match v with
  | JList items => Ok items
  | JStr s => Ok (map (fun c => JStr (String c EmptyString)) (list_ascii_of_string s))
  | JDict fields => Ok (map (fun kv => JStr (fst kv)) fields)
  | _ => Raise TypeError
  end.

(** [a < v] for an [int] [a]: an [int] or a [bool] on the right is
    compared by value, anything else is a [TypeError]. *)
Definition int_lt (a : Z) (v : json) : result bool :=
  match v with
  | JInt n => Ok (a <? n)
  | JBool b => Ok (a <? (if b then 1 else 0))
  | _ => Raise TypeError
  end.

End Py.

(** ** Scrapy's requests, responses and items *)

(** The query parameters of a listing request, in insertion order. *)
Definition params : Type := list (string * string).

Module Request.
(** [meta] is the entry ['params_template'] of the request's meta
    dict, [None] when the key is absent. *)
Record t : Type := mk {
  url : string;
  headers : list (string * string);
  meta : option params
}.
End Request.

Module Response.
Record t : Type := mk {
  url : string;
  text : string;
  request : Request.t
}.

(** [response.meta] is the meta of the request that was answered. *)
Definition meta (r : t) : option params := Request.meta (request r).
End Response.

(** Modelled from the spec: [ProposicaoItem] is declared in [items.py],
    which is not among the sources.  Its fields are the keys that
    [create_item_from_ajax] assigns, the OutputRecord of the data model:
    house, title, type, number, year, authors, subject, scrape
    timestamp, content identifier, download URL, file-download list and
    storage path, with the [meta] entry that keeps the process code. *)
Module ProposicaoItem.
Record t : Type := mk {
  house : string;
  title : string;
  type : string;
  number : json;
  year : json;
  author : list string;
  subject : string;
  scraped_at : string;
  meta : list (string * json);
  url : string;
  uuid : string;
  file_urls : list string;
  md_files : string
}.
End ProposicaoItem.

(** What the spider calls outside its own code: [str.strip] and
    [str.lower] on the texts of a record, which in Python follow the
    Unicode tables; [json.loads] ([None]
    when it raises [JSONDecodeError]), [response.urljoin], and the clock
    behind [datetime.now().isoformat()], read while the [k]-th processed
    record is turned into an item. *)
Record Library : Type := {
  str_strip : string -> string;
  str_lower : string -> string;
  json_loads : string -> option json;
  urljoin : Response.t -> string -> string;
  now : Z -> string
}.

(** What a callback hands to the engine. *)
Inductive yielded : Type :=
| YItem (item : ProposicaoItem.t)
| YRequest (request : Request.t)
| YNone.

(** How a run of the generator [parse] ends. *)
Inductive ending : Type :=
| Returned
| Raised (e : exn).

Definition items_of (ys : list yielded) : list ProposicaoItem.t :=
  flat_map (fun y => match y with YItem i => [i] | _ => [] end) ys.

Definition requests_of (ys : list yielded) : list Request.t :=
  flat_map (fun y => match y with YRequest r => [r] | _ => [] end) ys.

(** ** The spider *)

(** The attributes [__init__] sets, and what went to [self.logger]. *)
Module Spider.
Record t : Type := mk {
  data_inicio : option string;
  data_fim : option string;
  total_items_limit : option Z;
  items_processed_count : Z;
  logger : list string
}.

Definition info (self : t) (msg : string) : t :=
  mk (data_inicio self) (data_fim self) (total_items_limit self)
     (items_processed_count self) (logger self ++ [msg]).

Definition count_one (self : t) : t :=
  mk (data_inicio self) (data_fim self) (total_items_limit self)
     (items_processed_count self + 1) (logger self).

Definition with_limit (self : t) (limit : option Z) : t :=
  mk (data_inicio self) (data_fim self) limit
     (items_processed_count self) (logger self).
End Spider.

(** A spider argument: absent, a string (as [-a limit=100] passes it) or
    an integer. *)
Inductive arg : Type :=
| ArgNone
| ArgStr (s : string)
| ArgInt (n : Z).

Definition house : string := "Câmara Municipal de São Paulo".
Definition uf : string := "SP".
Definition slug : string := "sp-sao-paulo".
Definition ajax_url : string :=
  "https://splegisconsulta.saopaulo.sp.leg.br/Pesquisa/PageDataProjeto".
Definition items_per_page_ajax : Z := 100.

(** Truth value of [self.total_items_limit]: [None] and [0] are false. *)
Definition limit_set (limit : option Z) : bool :=
  match limit with
  | Some n => negb (n =? 0)
  | None => false
  end.

Definition limit_str (limit : option Z) : string :=
  match limit with
  | Some n => PyStr.of_Z n
  | None => "None"
  end.

(** [int(limit) if limit else None] *)
Definition int_if_given (limit : arg) : result (option Z) :=
  match limit with
  | ArgNone => Ok None
  | ArgStr s =>
      if String.eqb s EmptyString then Ok None
      else match PyStr.to_Z s with
           | Some n => Ok (Some n)
           | None => Raise ValueError
           end
  | ArgInt n => if n =? 0 then Ok None else Ok (Some n)
  end.

Definition __init__ (data_inicio data_fim : option string) (limit : arg)
  : result Spider.t :=
  total_items_limit <- int_if_given limit ;;
  let self := Spider.mk data_inicio data_fim total_items_limit 0 [] in
  Ok (if limit_set total_items_limit
      then Spider.info self ("Coleta limitada a " ++ limit_str total_items_limit ++ " itens.")
      else Spider.info self "Coletando todos os itens encontrados.").

(** ["&".join([f"{k}={v}" for k, v in params.items()])] *)
Definition query_string (p : params) : string :=
  PyStr.join "&" (map (fun kv => fst kv ++ "=" ++ snd kv) p).

Definition listing_headers : list (string * string) :=
  [("X-Requested-With", "XMLHttpRequest");
   ("Referer", "https://splegisconsulta.saopaulo.sp.leg.br/Pesquisa/IndexProjeto")].

(** [if a: params[k] = a] for an optional string attribute. *)
Definition put_if_given (k : string) (a : option string) (p : params) : params :=
  match a with
  | Some d => if String.eqb d EmptyString then p else Py.store k d p
  | None => p
  end.

Definition first_params (self : Spider.t) : params :=
  let p0 : params :=
    [("draw", "1"); ("start", "0"); ("length", PyStr.of_Z items_per_page_ajax);
     ("tipo", "1"); ("somenteEmTramitacao", "false");
     ("order[0][column]", "1"); ("order[0][dir]", "desc");
     ("search[value]", EmptyString); ("search[regex]", "false")] in
  put_if_given "autuacaoF" (Spider.data_fim self)
    (put_if_given "autuacaoI" (Spider.data_inicio self) p0).

(** The one request the generator [start_requests] yields. *)
Definition start_requests (self : Spider.t) : list Request.t :=
  let p := first_params self in
  [Request.mk (ajax_url ++ "?" ++ query_string p) listing_headers (Some p)].

(** [template.format(codigo=value)] for a template whose only
    replacement field is [{codigo}]; [skip] counts the characters of a
    field that are still to be passed over. *)
Fixpoint format_from (skip : nat) (template : string) (value : string) : string :=
  match template with
  | EmptyString => EmptyString
  | String c r =>
      match skip with
      | S k => format_from k r value
      | O =>
          if String.prefix "{codigo}" template
          then value ++ format_from 7 r value
          else String c (format_from 0 r value)
      end
  end.

Definition format_codigo (template : string) (value : string) : string :=
  format_from 0 template value.

Definition link_referidas : string :=
  "/ArquivoProcesso/GerarArquivoProcessoPorID/{codigo}?referidas=true".
Definition link_anexo : string :=
  "/ArquivoProcesso/GerarArquivoProcessoPorID/{codigo}?filtroAnexo=1".

(** [t.lower().replace(' ', '-') if t else 'unknown'] *)
Definition normalized_type (lib : Library) (t : string) : string :=
  if String.eqb t EmptyString then "unknown"
  else PyStr.replace " " "-" (str_lower lib t).

(** [int(d.get(k, default))] on a parameter dict; a stored value is a
    string, the default an integer. *)
Definition int_param (p : params) (k : string) (default : Z) : result Z :=
  match Py.lookup k p with
  | None => Ok default
  | Some s =>
      match PyStr.to_Z s with
      | Some n => Ok n
      | None => Raise ValueError
      end
  end.

(** What [for ajax_data in data_json.get('data', [])] runs over. *)
Definition records_of_page (data_json : json) : result (list json) :=
  proposicoes_ajax <- Py.get data_json "data" (JList []) ;; Py.iter proposicoes_ajax.

(** How the loop of [parse] over the records ends. *)
Inductive loop_end : Type :=
| Exhausted
| LimitReached
| Failed (e : exn).

Section Methods.

Variable lib : Library.

(** [ajax_data.get(k, '').strip()] *)
Definition stripped (ajax_data : json) (k : string) : result string :=
  v <- Py.get ajax_data k (JStr EmptyString) ;; Py.strip (str_strip lib) v.

(** [None] is the [return None] of a record without a process code. *)
Definition create_item_from_ajax (self : Spider.t) (ajax_data : json)
    (response : Response.t) : result (option ProposicaoItem.t) :=
  codigo_processo <- Py.get ajax_data "codigo" JNull ;;
  if negb (Py.truthy codigo_processo) then Ok None
  else
    title <- stripped ajax_data "texto" ;;
    type <- stripped ajax_data "sigla" ;;
    number <- Py.get ajax_data "numero" JNull ;;
    year <- Py.get ajax_data "ano" JNull ;;
    promoventes <- Py.get ajax_data "promoventes" (JList []) ;;
    ps <- Py.iter promoventes ;;
    author <- traverse (fun p => stripped p "texto") ps ;;
    subject <- stripped ajax_data "ementa" ;;
    let scraped_at := now lib (Spider.items_processed_count self) in
    natodigital <- Py.get ajax_data "natodigital" JNull ;;
    let pdf_link_template :=
      if Py.truthy natodigital then link_referidas else link_anexo in
    let url :=
      urljoin lib response (format_codigo pdf_link_template (Py.str codigo_processo)) in
    let uuid := MD5.hexdigest (Py.str codigo_processo) in
    let md_files :=
      uf ++ "/" ++ slug ++ "/" ++ normalized_type lib type ++ "-" ++ Py.str number
         ++ "-" ++ Py.str year ++ ".md" in
    Ok (Some (ProposicaoItem.mk house title type number year author subject
                scraped_at [("source_json_codigo", codigo_processo)]
                url uuid [url] md_files)).

(** [None] in the result is the method falling off its end. *)
Definition get_next_page_request (self : Spider.t) (response : Response.t)
    (data_json : json) : Spider.t * result (option Request.t) :=
  match
    records_filtered <- Py.get data_json "recordsFiltered" (JInt 0) ;;
    current_start_offset <-
      int_param (match Response.meta response with Some p => p | None => [] end)
                "start" 0 ;;
    let next_page_start_offset := current_start_offset + items_per_page_ajax in
    more <- Py.int_lt next_page_start_offset records_filtered ;;
    if more : bool then
      match Response.meta response with
      | None => Raise AttributeError
      | Some params_template =>
          draw <- int_param params_template "draw" 1 ;;
          let next_params :=
            Py.store "start" (PyStr.of_Z next_page_start_offset)
              (Py.store "draw" (PyStr.of_Z (draw + 1)) params_template) in
          Ok (Some (next_page_start_offset,
                    Request.mk (ajax_url ++ "?" ++ query_string next_params)
                      (Request.headers (Response.request response))
                      (Some next_params)))
      end
    else Ok None
  with
  | Raise e => (self, Raise e)
  | Ok None => (self, Ok None)
  | Ok (Some (next_start, request)) =>
      (Spider.info self ("Buscando próxima página. Start: " ++ PyStr.of_Z next_start),
       Ok (Some request))
  end.

(** [self.total_items_limit and
    self.items_processed_count >= self.total_items_limit] *)
Definition limit_reached (self : Spider.t) : bool :=
  limit_set (Spider.total_items_limit self)
  && match Spider.total_items_limit self with
     | Some limit => limit <=? Spider.items_processed_count self
     | None => false
     end.

Definition below_limit (self : Spider.t) : bool :=
  match Spider.total_items_limit self with
  | Some limit => Spider.items_processed_count self <? limit
  | None => false
  end.

(** The [for] loop of [parse]: what it yields, how it ends, and the
    spider afterwards. *)
Fixpoint parse_loop (self : Spider.t) (response : Response.t)
    (proposicoes_ajax : list json) : list yielded * loop_end * Spider.t :=
  match proposicoes_ajax with
  | [] => ([], Exhausted, self)
  | ajax_data :: rest =>
      if limit_reached self then
        ([], LimitReached,
         Spider.info self
           ("Limite de " ++ limit_str (Spider.total_items_limit self)
              ++ " itens atingido. Encerrando."))
      else
        let self := Spider.count_one self in
        match create_item_from_ajax self ajax_data response with
        | Raise e => ([], Failed e, self)
        | Ok None => parse_loop self response rest
        | Ok (Some item) =>
            let '(ys, e, self') := parse_loop self response rest in
            (YItem item :: ys, e, self')
        end
  end.

(** The generator [parse], run to its end. *)
Definition parse (self : Spider.t) (response : Response.t)
  : list yielded * ending * Spider.t :=
  match json_loads lib (Response.text response) with
  | None => ([], Raised JSONDecodeError, self)
  | Some data_json =>
      match records_of_page data_json with
      | Raise e => ([], Raised e, self)
      | Ok proposicoes_ajax =>
          let '(ys, e, self) := parse_loop self response proposicoes_ajax in
          match e with
          | Failed ex => (ys, Raised ex, self)
          | LimitReached => (ys, Returned, self)
          | Exhausted =>
              if negb (limit_set (Spider.total_items_limit self))
                 || below_limit self
              then
                match get_next_page_request self response data_json with
                | (self, Raise ex) => (ys, Raised ex, self)
                | (self, Ok None) => (ys ++ [YNone], Returned, self)%list
                | (self, Ok (Some request)) => (ys ++ [YRequest request], Returned, self)%list
                end
              else (ys, Returned, self)
          end
      end
  end.

(** The engine, for a spider whose requests all call back [parse]:
    each request in the queue is fetched from [server] and parsed, and
    the requests the page yields join the queue.  A request stands for
    the arguments the spider gave to [scrapy.Request]: the engine's
    escaping of the URL and the headers its middlewares add are not
    modelled, so the response hands back the request as it was built.  The result lists
    the requests issued and the items collected; [None] is fuel
    running out. *)
Fixpoint crawl (server : Request.t -> string) (fuel : nat) (self : Spider.t)
    (queue : list Request.t)
  : option (list Request.t * list ProposicaoItem.t * Spider.t) :=
  match queue with
  | [] => Some ([], [], self)
  | request :: rest =>
      match fuel with
      | O => None
      | S fuel' =>
          let response := Response.mk (Request.url request) (server request) request in
          let '(ys, _, self) := parse self response in
          match crawl server fuel' self (rest ++ requests_of ys)%list with
          | None => None
          | Some (requests, items, self') =>
              Some (request :: requests, (items_of ys ++ items)%list, self')
          end
      end
  end.

(** A whole run: the start request and everything that follows. *)
Definition run (server : Request.t -> string) (fuel : nat) (self : Spider.t)
  : option (list Request.t * list ProposicaoItem.t * Spider.t) :=
  crawl server fuel self (start_requests self).

End Methods.

(** ** A library to run the spider on

    A decoder for JSON text without escape sequences, fractions or
    exponents, and a resolver for references that are absolute paths.
    [strip] and [lower] are the ASCII ones of [PyStr].  The theorems
    below hold for every [Library]; this one evaluates the spider on
    concrete pages of ASCII text. *)

Module JsonText.

Definition is_ws (c : ascii) : bool :=
  let n := nat_of_ascii c in
  ((n =? 32) || (n =? 9) || (n =? 10) || (n =? 13))%nat.

Fixpoint skip_ws (s : list ascii) : list ascii :=
  match s with
  | c :: r => if is_ws c then skip_ws r else s
  | [] => []
  end.

(** The text of a string literal after its opening quote. *)
Fixpoint literal (s : list ascii) : option (string * list ascii) :=
  match s with
  | [] => None
  | c :: r =>
      if Ascii.eqb c Py.dquote then Some (EmptyString, r)
      else if Ascii.eqb c Py.backslash || (nat_of_ascii c <? 32)%nat then None
      else match literal r with
           | Some (t, r') => Some (String c t, r')
           | None => None
           end
  end.

Fixpoint digits (s : list ascii) (acc : Z) : Z * list ascii :=
  match s with
  | c :: r => if PyStr.is_digit c then digits r (10 * acc + PyStr.digit_val c) else (acc, s)
  | [] => (acc, [])
  end.

(** An integer after its sign: [0], or digits that do not start
    with [0]; a fraction or an exponent is not read. *)
Definition natural (s : list ascii) : option (Z * list ascii) :=
  match s with
  | c :: r =>
      if negb (PyStr.is_digit c) then None
      else
        let '(n, r') := if Ascii.eqb c "0" then (0, r) else digits s 0 in
        match r' with
        | d :: _ =>
            if PyStr.is_digit d || Ascii.eqb d "." || Ascii.eqb d "e" || Ascii.eqb d "E"
            then None else Some (n, r')
        | [] => Some (n, r')
        end
  | [] => None
  end.

Fixpoint keyword (k : list ascii) (s : list ascii) : option (list ascii) :=
  match k, s with
  | [], _ => Some s
  | a :: k', b :: s' => if Ascii.eqb a b then keyword k' s' else None
  | _ :: _, [] => None
  end.

Fixpoint value (fuel : nat) (s : list ascii) : option (json * list ascii) :=
  match fuel with
  | O => None
  | S fuel' =>
      match skip_ws s with
      | [] => None
      | c :: r =>
          if Ascii.eqb c Py.dquote then
            match literal r with
            | Some (t, r') => Some (JStr t, r')
            | None => None
            end
          else if Ascii.eqb c "[" then
            match skip_ws r with
            | d :: r' => if Ascii.eqb d "]" then Some (JList [], r') else elements fuel' r
            | [] => None
            end
          else if Ascii.eqb c "{" then
            match skip_ws r with
            | d :: r' => if Ascii.eqb d "}" then Some (JDict [], r') else members fuel' r []
            | [] => None
            end
          else if Ascii.eqb c "-" then
            match natural r with
            | Some (n, r') => Some (JInt (- n), r')
            | None => None
            end
          else if Ascii.eqb c "n" then
            option_map (pair JNull) (keyword (list_ascii_of_string "ull") r)
          else if Ascii.eqb c "t" then
            option_map (pair (JBool true)) (keyword (list_ascii_of_string "rue") r)
          else if Ascii.eqb c "f" then
            option_map (pair (JBool false)) (keyword (list_ascii_of_string "alse") r)
          else
            match natural (c :: r) with
            | Some (n, r') => Some (JInt n, r')
            | None => None
            end
      end
  end
with elements (fuel : nat) (s : list ascii) : option (json * list ascii) :=
  match fuel with
  | O => None
  | S fuel' =>
      match value fuel' s with
      | None => None
      | Some (v, r) =>
          match skip_ws r with
          | c :: r' =>
              if Ascii.eqb c "]" then Some (JList [v], r')
              else if Ascii.eqb c "," then
                match elements fuel' r' with
                | Some (JList vs, r'') => Some (JList (v :: vs), r'')
                | _ => None
                end
              else None
          | [] => None
          end
      end
  end
with members (fuel : nat) (s : list ascii) (acc : list (string * json))
  : option (json * list ascii) :=
  match fuel with
  | O => None
  | S fuel' =>
      match skip_ws s with
      | q :: r =>
          if negb (Ascii.eqb q Py.dquote) then None
          else
            match literal r with
            | None => None
            | Some (k, r1) =>
                match skip_ws r1 with
                | c :: r2 =>
                    if negb (Ascii.eqb c ":") then None
                    else
                      match value fuel' r2 with
                      | None => None
                      | Some (v, r3) =>
                          (* a repeated key keeps its place and takes the last value *)
                          let acc := Py.store k v acc in
                          match skip_ws r3 with
                          | d :: r4 =>
                              if Ascii.eqb d "}" then Some (JDict acc, r4)
                              else if Ascii.eqb d "," then members fuel' r4 acc
                              else None
                          | [] => None
                          end
                      end
                | [] => None
                end
            end
      | [] => None
      end
  end.

Definition loads (text : string) : option json :=
  let s := list_ascii_of_string text in
  match value (S (List.length s)) s with
  | Some (v, r) => match skip_ws r with [] => Some v | _ => None end
  | None => None
  end.

End JsonText.

Module Url.

(** The characters of [s] before the first [/], [?] or [#]. *)
Fixpoint authority (s : string) : string :=
  match s with
  | EmptyString => EmptyString
  | String c r =>
      if Ascii.eqb c "/" || Ascii.eqb c "?" || Ascii.eqb c "#" then EmptyString
      else String c (authority r)
  end.

(** [scheme://authority] of an absolute URL. *)
Fixpoint origin (url : string) : string :=
  match url with
  | EmptyString => EmptyString
  | String c r =>
      if String.prefix "://" url
      then "://" ++ authority (String.substring 2 (String.length r) r)
      else String c (origin r)
  end.

(** [urljoin(base, path)] for a [path] that starts with one [/] and
    has no dot segment. *)
Definition join (base path : string) : string := origin base ++ path.

End Url.

(** JSON text written with ['] where the text has a double quote. *)
Definition dq (s : string) : string :=
  PyStr.replace Py.quote (String Py.dquote EmptyString) s.

Definition library : Library :=
  {| str_strip := PyStr.strip;
     str_lower := PyStr.lower;
     json_loads := JsonText.loads;
     urljoin := fun response path => Url.join (Response.url response) path;
     now := fun k => "2024-01-01T00:00:00." ++ PyStr.of_Z k |}.

(** ** Pages the spider reads without raising *)

(** The field [k] is absent or a string, so [.get(k, '').strip()]
    succeeds. *)
Definition text_ok (fields : list (string * json)) (k : string) : bool :=
  match Py.lookup k fields with
  | None => true
  | Some (JStr _) => true
  | Some _ => false
  end.

Definition author_ok (p : json) : bool :=
  match p with
  | JDict fields => text_ok fields "texto"
  | _ => false
  end.

Definition authors_ok (fields : list (string * json)) : bool :=
  match Py.lookup "promoventes" fields with
  | None => true
  | Some v =>
      match Py.iter v with
      | Ok ps => forallb author_ok ps
      | Raise _ => false
      end
  end.

(** The record carries a process code: [codigo] is there and true. *)
Definition has_code (record : json) : bool :=
  match record with
  | JDict fields =>
      match Py.lookup "codigo" fields with
      | Some codigo => Py.truthy codigo
      | None => false
      end
  | _ => false
  end.

(** A record [create_item_from_ajax] does not raise on: an object that
    either lacks a process code, or whose text fields are strings and
    whose authors are objects with a string [texto]. *)
Definition valid_record (record : json) : bool :=
  match record with
  | JDict fields =>
      negb (has_code record)
      || (text_ok fields "texto" && text_ok fields "sigla" && authors_ok fields
          && text_ok fields "ementa")
  | _ => false
  end.

Definition is_ok {A : Type} (r : result A) : bool :=
  match r with
  | Ok _ => true
  | Raise _ => false
  end.

Definition is_int (v : json) : bool :=
  match v with
  | JInt _ => true
  | JBool _ => true
  | _ => false
  end.

(** A decoded page whose records are valid and whose filtered total, if
    present, is a number. *)
Definition valid_page (page : json) : bool :=
  match records_of_page page, Py.get page "recordsFiltered" (JInt 0) with
  | Ok records, Ok total => forallb valid_record records && is_int total
  | _, _ => false
  end.

(** A request whose parameters carry integers in [start] and [draw], as
    the requests of this spider do. *)
Definition valid_request (request : Request.t) : bool :=
  match Request.meta request with
  | Some p => is_ok (int_param p "start" 0) && is_ok (int_param p "draw" 1)
  | None => false
  end.

(** The records of a list that carry a process code, and those that
    lack one. *)
Definition coded (records : list json) : list json := filter has_code records.

Definition uncoded (records : list json) : list json :=
  filter (fun r => negb (has_code r)) records.

(** How many records of a page of [k] the loop reaches before the limit
    stops it. *)
Definition reach (self : Spider.t) (k : nat) : nat :=
  match Spider.total_items_limit self with
  | Some limit =>
      if limit_set (Some limit)
      then Nat.min k (Z.to_nat (limit - Spider.items_processed_count self))
      else k
  | None => k
  end.

(** The ceiling of [t / p] for a positive [p]. *)
Definition ceil_div (t p : Z) : Z := (t + p - 1) / p.

Definition is_byte (b : Z) : Prop := 0 <= b < 256.

(** Two different messages with one digest. *)
Definition md5_collision (a b : string) : Prop :=
  a <> b /\ MD5.digest (MD5.encode a) = MD5.digest (MD5.encode b).

(** ** Sample pages *)

Definition spider0 : Spider.t := Spider.mk None None None 0 [].

Definition first_request : Request.t :=
  Request.mk (ajax_url ++ "?" ++ query_string (first_params spider0)) listing_headers
    (Some (first_params spider0)).

Definition respond (body : string) : Response.t :=
  Response.mk (Request.url first_request) body first_request.

Definition scenario_page : string :=
  dq "{'recordsFiltered': 150, 'data':[{'codigo':'X1','sigla':'PL','numero':5,'ano':2023,'ementa':'Test','promoventes':[{'texto':'A'}],'natodigital':false}]}".

(** Two records, the first without a process code. *)
Definition mixed_page : string :=
  dq "{'recordsFiltered': 2, 'data':[{'sigla':'PL','numero':1,'ano':2024},{'codigo':'X2','sigla':'PL','numero':2,'ano':2024}]}".

Definition mixed_records : list json :=
  [JDict [("sigla", JStr "PL"); ("numero", JInt 1); ("ano", JInt 2024)];
   JDict [("codigo", JStr "X2"); ("sigla", JStr "PL"); ("numero", JInt 2);
          ("ano", JInt 2024)]].

(** What [mixed_page] decodes to. *)
Definition mixed_json : json :=
  JDict [("recordsFiltered", JInt 2); ("data", JList mixed_records)].

(** An object and nothing else. *)
Definition bare_page : string := "{}".

Definition empty_page : string := dq "{'recordsFiltered': 0, 'data': []}".

Definition long_listing : string :=
  dq "{'recordsFiltered': 250, 'data': [{'codigo': 7, 'sigla': 'PL', 'numero': 1, 'ano': 2024}, {}]}".

Definition long_records : list json :=
  [JDict [("codigo", JInt 7); ("sigla", JStr "PL"); ("numero", JInt 1); ("ano", JInt 2024)];
   JDict []].

(** What [long_listing] decodes to. *)
Definition long_json : json :=
  JDict [("recordsFiltered", JInt 250); ("data", JList long_records)].

Definition spider_limit (limit : Z) : Spider.t := Spider.mk None None (Some limit) 0 [].

Definition pl_record : json :=
  JDict [("codigo", JStr "X1"); ("sigla", JStr "Pl "); ("numero", JInt 123);
         ("ano", JInt 2024); ("natodigital", JBool true)].

(** A record whose type code is one blank. *)
Definition blank_type_record : json :=
  JDict [("codigo", JStr "X1"); ("sigla", JStr " "); ("numero", JInt 1);
         ("ano", JInt 2024)].

(** A record with a process code and nothing else. *)
Definition code_only : json := JDict [("codigo", JInt 123); ("sigla", JStr "PL")].

(** The server answers with a page the spider reads without raising,
    whose filtered total is [total]. *)
Definition serves (lib : Library) (total : Z) (body : string) : bool :=
  match json_loads lib body with
  | Some page =>
      valid_page page
      && match Py.get page "recordsFiltered" (JInt 0) with
         | Ok (JInt t) => t =? total
         | _ => false
         end
  | None => false
  end.

(** The same process code as [code_only], as a text. *)
Definition code_text : json := JDict [("codigo", JStr "123"); ("sigla", JStr "PL")].

(** ** The specification's statements that the code does not meet

    Each is written as the specification words it, to be refuted on a
    concrete page. *)

Module Stated.

(** A page of K records of which M lack a process code yields K - M
    items and raises the processed count by K - M. *)
Definition skip_semantics (lib : Library) (self : Spider.t) (response : Response.t) : Prop :=
  forall page records,
    json_loads lib (Response.text response) = Some page ->
    records_of_page page = Ok records ->
    (List.length (uncoded records) < List.length records)%nat ->
    let '(ys, _, self') := parse lib self response in
    List.length (items_of ys)
    = (List.length records - List.length (uncoded records))%nat
    /\ Spider.items_processed_count self'
       = Spider.items_processed_count self
         + Z.of_nat (List.length records - List.length (uncoded records)).

Definition has_records_array (page : json) : bool :=
  match page with
  | JDict fields =>
      match Py.lookup "data" fields with
      | Some (JList _) => true
      | _ => false
      end
  | _ => false
  end.

(** [parse] fails exactly when the body is not JSON or the decoded
    document lacks the array of records. *)
Definition malformed_response (lib : Library) (self : Spider.t) (response : Response.t)
  : Prop :=
  (exists e, snd (fst (parse lib self response)) = Raised e)
  <-> (json_loads lib (Response.text response) = None
       \/ exists page, json_loads lib (Response.text response) = Some page
                       /\ has_records_array page = false).

(** With a limit L below the page size, a first page holding at least
    L records with a process code yields exactly L items and no next
    request. *)
Definition limit_enforcement (lib : Library) (self : Spider.t) (response : Response.t)
  : Prop :=
  forall page records limit,
    json_loads lib (Response.text response) = Some page ->
    records_of_page page = Ok records ->
    Spider.total_items_limit self = Some limit ->
    0 < limit < items_per_page_ajax ->
    Spider.items_processed_count self = 0 ->
    (Z.to_nat limit <= List.length (coded records))%nat ->
    let '(ys, _, _) := parse lib self response in
    List.length (items_of ys) = Z.to_nat limit /\ requests_of ys = [].

(** Without a limit, a listing of [total] records is walked in
    ceil(total / page size) requests. *)
Definition pagination (lib : Library) (server : Request.t -> string) (self : Spider.t)
    (total : Z) : Prop :=
  (forall request, serves lib total (server request) = true) ->
  limit_set (Spider.total_items_limit self) = false ->
  exists fuel requests items self',
    run lib server fuel self = Some (requests, items, self')
    /\ Z.of_nat (List.length requests) = ceil_div total items_per_page_ajax.

(** Two different process codes have different identifiers, unless
    their string forms collide under MD5. *)
Definition distinct_identifiers (lib : Library) (self : Spider.t) (response : Response.t)
    (record1 record2 : json) : Prop :=
  forall codigo1 codigo2 item1 item2,
    Py.get record1 "codigo" JNull = Ok codigo1 ->
    Py.get record2 "codigo" JNull = Ok codigo2 ->
    create_item_from_ajax lib self record1 response = Ok (Some item1) ->
    create_item_from_ajax lib self record2 response = Ok (Some item2) ->
    codigo1 <> codigo2 ->
    ProposicaoItem.uuid item1 <> ProposicaoItem.uuid item2
    \/ md5_collision (Py.str codigo1) (Py.str codigo2).

(** The normalized type as the specification words it: the type code
    lower-cased, trimmed, its spaces replaced by hyphens, or [unknown]
    when the type code is empty. *)
Definition normalized (lib : Library) (type_code : string) : string :=
  if String.eqb type_code EmptyString then "unknown"
  else PyStr.replace " " "-" (str_strip lib (str_lower lib type_code)).

(** The storage path of an item is built from that normalized type of
    the record's type code. *)
Definition storage_path (lib : Library) (self : Spider.t) (response : Response.t)
    (record : json) : Prop :=
  forall type_code item,
    Py.get record "sigla" (JStr EmptyString) = Ok (JStr type_code) ->
    create_item_from_ajax lib self record response = Ok (Some item) ->
    ProposicaoItem.md_files item
    = "SP/sp-sao-paulo/" ++ normalized lib type_code
        ++ "-" ++ Py.str (ProposicaoItem.number item)
        ++ "-" ++ Py.str (ProposicaoItem.year item) ++ ".md".

End Stated.

(** ** Notions for the properties of the whole spider *)

(** The process code an item keeps in its [meta]. *)
Definition item_code (item : ProposicaoItem.t) : option json :=
  Py.lookup "source_json_codigo" (ProposicaoItem.meta item).

(** The [codigo] field of a record. *)
Definition record_code (record : json) : option json :=
  match record with
  | JDict fields => Py.lookup "codigo" fields
  | _ => None
  end.

(** An upper-case ASCII letter. *)
Definition is_upper (c : ascii) : bool :=
  let n := nat_of_ascii c in ((65 <=? n) && (n <=? 90))%nat.

(** The [start] and [draw] a request carries. *)
Definition offsets (request : Request.t) : result Z * result Z :=
  match Request.meta request with
  | Some p => (int_param p "start" 0, int_param p "draw" 1)
  | None => (Ok 0, Ok 1)
  end.

(** Every page the server sends that decodes has a record. *)
Definition never_empty (lib : Library) (server : Request.t -> string) : Prop :=
  forall request page records,
    json_loads lib (server request) = Some page ->
    records_of_page page = Ok records ->
    records <> [].

(** A response to a request that carries no parameters in its meta. *)
Definition bare_response : Response.t :=
  Response.mk ajax_url bare_page (Request.mk ajax_url [] None).

(** A page whose second record has a number where its title should be. *)
Definition broken_page : string :=
  dq "{'recordsFiltered': 500, 'data':[{'codigo':'X1','sigla':'PL'},{'codigo':'X2','texto':5},{'codigo':'X3'}]}".

Definition broken_good : list json :=
  [JDict [("codigo", JStr "X1"); ("sigla", JStr "PL")]].

Definition broken_bad : json := JDict [("codigo", JStr "X2"); ("texto", JInt 5)].

Definition broken_rest : list json := [JDict [("codigo", JStr "X3")]].

(** What [broken_page] decodes to. *)
Definition broken_json : json :=
  JDict [("recordsFiltered", JInt 500);
         ("data", JList (broken_good ++ broken_bad :: broken_rest)%list)].

(** * Facts *)

Example strip_ex : PyStr.strip "  Pl  x " = "Pl  x".
Proof. reflexivity. Qed.
Example to_Z_ex : PyStr.to_Z " -1_200 " = Some (-1200).
Proof. reflexivity. Qed.
Example of_Z_ex : PyStr.of_Z (-120) = "-120" /\ PyStr.of_Z 0 = "0".
Proof. split; reflexivity. Qed.

Example md5_empty : MD5.hexdigest EmptyString = "d41d8cd98f00b204e9800998ecf8427e".
Proof. vm_compute. reflexivity. Qed.
Example md5_abc : MD5.hexdigest "abc" = "900150983cd24fb0d6963f7d28e17f72".
Proof. vm_compute. reflexivity. Qed.
Example md5_fox :
  MD5.hexdigest "The quick brown fox jumps over the lazy dog"
  = "9e107d9d372bb6826bd81d3542a419d6".
Proof. vm_compute. reflexivity. Qed.
Example md5_two_blocks :
  MD5.hexdigest "aaaaaaaaaaaaaaaaaaaaaaaaaaaaaaaaaaaaaaaaaaaaaaaaaaaaaaaa"
  = "3b0c8ac703f828b04c6c197006d17218".
Proof. vm_compute. reflexivity. Qed.

Example repr_ex :
  Py.str (JList [JInt 1; JStr "a'b"; JDict [("k", JNull)]; JBool true])
  = String "[" ("1, " ++ String Py.dquote ("a'b" ++ String Py.dquote ", {'k': None}, True]")).
Proof. reflexivity. Qed.

Example format_ex : format_codigo "/a/{codigo}?b={codigo}." "77" = "/a/77?b=77.".
Proof. reflexivity. Qed.

Example loads_ex :
  JsonText.loads (dq "{ 'a' : [1, -20, true, null, 'x y'], 'b':{}, 'a': [] } ")
  = Some (JDict [("a", JList []); ("b", JDict [])]).
Proof. reflexivity. Qed.
Example loads_bad : JsonText.loads (dq "{'a': 1,}") = None /\ JsonText.loads EmptyString = None.
Proof. split; reflexivity. Qed.
Example join_ex :
  Url.join (ajax_url ++ "?draw=1") "/ArquivoProcesso/x?y=1"
  = "https://splegisconsulta.saopaulo.sp.leg.br/ArquivoProcesso/x?y=1".
Proof. reflexivity. Qed.


(** The end-to-end scenario of the specification: one record on a
    listing of 150, read from offset 0. *)
Example scenario :
  let '(ys, e, self') := parse library spider0 (respond scenario_page) in
  map ProposicaoItem.md_files (items_of ys) = ["SP/sp-sao-paulo/pl-5-2023.md"]
  /\ map ProposicaoItem.url (items_of ys)
     = ["https://splegisconsulta.saopaulo.sp.leg.br/ArquivoProcesso/GerarArquivoProcessoPorID/X1?filtroAnexo=1"]
  /\ map (fun r => option_map (fun p => (Py.lookup "start" p, Py.lookup "draw" p))
                     (Request.meta r)) (requests_of ys)
     = [Some (Some "100", Some "2")]
  /\ e = Returned
  /\ Spider.items_processed_count self' = 1.
Proof. vm_compute. repeat split; reflexivity. Qed.

(** ** Strings *)

Module PyStrFacts.
Import PyStr.

Lemma is_space_lower (c : ascii) : is_space (lower_char c) = is_space c.
Proof. destruct c as [[] [] [] [] [] [] [] []]; reflexivity. Qed.

Lemma lstrip_lower (s : string) : lstrip (lower s) = lower (lstrip s).
Proof.
  induction s as [|c r IH]; simpl; [reflexivity|].
  rewrite is_space_lower. destruct (is_space c); [exact IH | reflexivity].
Qed.

Lemma rstrip_lower (s : string) : rstrip (lower s) = lower (rstrip s).
Proof.
  induction s as [|c r IH]; simpl; [reflexivity|].
  rewrite IH, is_space_lower.
  destruct (rstrip r); simpl; [destruct (is_space c)|]; reflexivity.
Qed.

Lemma strip_lower (s : string) : strip (lower s) = lower (strip s).
Proof. unfold strip. now rewrite lstrip_lower, rstrip_lower. Qed.

Lemma lstrip_clean (s : string) : starts_clean (lstrip s) = true.
Proof.
  induction s as [|c r IH]; simpl; [reflexivity|].
  destruct (is_space c) eqn:E; [exact IH | simpl; now rewrite E].
Qed.

Lemma clean_lstrip (s : string) : starts_clean s = true -> lstrip s = s.
Proof. destruct s as [|c r]; simpl; [reflexivity|]. now destruct (is_space c). Qed.

Lemma rstrip_clean (s : string) : starts_clean s = true -> starts_clean (rstrip s) = true.
Proof.
  destruct s as [|c r]; simpl; [reflexivity|]. intros H.
  destruct (rstrip r); simpl; [|exact H].
  destruct (is_space c) eqn:E; simpl in *; [discriminate | now rewrite E].
Qed.

Lemma rstrip_idem (s : string) : rstrip (rstrip s) = rstrip s.
Proof.
  induction s as [|c r IH]; simpl; [reflexivity|].
  destruct (rstrip r) as [|a t] eqn:E.
  - destruct (is_space c) eqn:Ec; simpl; [reflexivity | now rewrite Ec].
  - change (rstrip (String c (String a t))) with
      (match rstrip (String a t) with
       | EmptyString => if is_space c then EmptyString else String c EmptyString
       | r' => String c r'
       end).
    now rewrite IH.
Qed.

Lemma strip_idem (s : string) : strip (strip s) = strip s.
Proof.
  unfold strip.
  rewrite (clean_lstrip (rstrip (lstrip s))).
  - apply rstrip_idem.
  - apply rstrip_clean, lstrip_clean.
Qed.

Lemma strip_lower_strip (s : string) : strip (lower (strip s)) = lower (strip s).
Proof. now rewrite strip_lower, strip_idem. Qed.

(** *** [int(str(n)) = n] *)

Lemma digit_not_space (c : ascii) : is_digit c = true -> is_space c = false.
Proof. destruct c as [[] [] [] [] [] [] [] []]; vm_compute; intros; congruence. Qed.

Lemma digit_not_sign (c : ascii) :
  is_digit c = true -> Ascii.eqb c "-" = false /\ Ascii.eqb c "+" = false.
Proof.
  destruct c as [[] [] [] [] [] [] [] []]; vm_compute; intros; split; congruence.
Qed.

Lemma rstrip_digits (s : string) : all_digits s -> rstrip s = s.
Proof.
  induction s as [|c r IH]; intros H; simpl; [reflexivity|].
  rewrite IH by (intros a Ha; apply H; simpl; auto).
  destruct r; [|reflexivity].
  rewrite digit_not_space; [reflexivity|]. apply H; simpl; auto.
Qed.

Lemma strip_digits (s : string) : all_digits s -> strip s = s.
Proof.
  intros H. unfold strip. rewrite clean_lstrip; [now apply rstrip_digits|].
  destruct s as [|c r]; simpl; [reflexivity|].
  rewrite digit_not_space; [reflexivity|]. apply H; simpl; auto.
Qed.

Lemma uint_all_digits (d : Decimal.uint) : all_digits (NilEmpty.string_of_uint d).
Proof.
  induction d; intros c; simpl; try tauto;
    (intros [<-|H]; [reflexivity | now apply IHd]).
Qed.

Lemma digits_cons (c : ascii) (r : string) (acc : Z) (b : bool) :
  is_digit c = true -> digits (String c r) acc b = digits r (10 * acc + digit_val c) false.
Proof. intros H. simpl. now rewrite H. Qed.

Ltac eval_digit :=
  match goal with
  | |- context [digit_val ?c] =>
      let v := eval vm_compute in (digit_val c) in change (digit_val c) with v
  end.

Lemma digits_acc (d : Decimal.uint) (acc : positive) :
  digits (NilEmpty.string_of_uint d) (Zpos acc) false = Some (Zpos (Pos.of_uint_acc d acc)).
Proof.
  revert acc. induction d; intros acc; [reflexivity|..];
    cbn [NilEmpty.string_of_uint Pos.of_uint_acc];
    rewrite digits_cons by reflexivity; rewrite <- IHd; eval_digit;
    f_equal; lia.
Qed.

Lemma digits_uint (d : Decimal.uint) :
  digits (NilEmpty.string_of_uint d) 0 false = Some (Z.of_N (Pos.of_uint d)).
Proof.
  induction d; [reflexivity|..];
    cbn [NilEmpty.string_of_uint Pos.of_uint];
    rewrite digits_cons by reflexivity; eval_digit;
    [exact IHd | simpl (10 * 0 + _); apply digits_acc ..].
Qed.

Lemma unsigned_pos (p : positive) :
  unsigned (NilEmpty.string_of_uint (Pos.to_uint p)) = Some (Zpos p).
Proof.
  pose proof (digits_uint (Pos.to_uint p)) as H.
  rewrite DecimalPos.Unsigned.of_to in H. simpl in H.
  pose proof (DecimalPos.Unsigned.to_uint_nonnil p) as Hn.
  pose proof (uint_all_digits (Pos.to_uint p)) as Hd.
  unfold unsigned.
  destruct (NilEmpty.string_of_uint (Pos.to_uint p)) as [|c r] eqn:E.
  - destruct (Pos.to_uint p); simpl in E; congruence.
  - rewrite (Hd c) by (simpl; auto). exact H.
Qed.

Lemma nilzero_pos (p : positive) :
  NilZero.string_of_uint (Pos.to_uint p) = NilEmpty.string_of_uint (Pos.to_uint p).
Proof.
  pose proof (DecimalPos.Unsigned.to_uint_nonnil p).
  unfold NilZero.string_of_uint. destruct (Pos.to_uint p); congruence.
Qed.

Lemma to_Z_of_Z (n : Z) : to_Z (of_Z n) = Some n.
Proof.
  destruct n as [|p|p]; [reflexivity| |].
  - unfold of_Z, to_Z. simpl. rewrite nilzero_pos.
    pose proof (uint_all_digits (Pos.to_uint p)) as Hd.
    rewrite strip_digits by exact Hd.
    pose proof (unsigned_pos p) as Hu.
    destruct (NilEmpty.string_of_uint (Pos.to_uint p)) as [|c r]; [discriminate|].
    destruct (digit_not_sign c) as [-> ->]; [apply Hd; simpl; auto | exact Hu].
  - unfold of_Z, to_Z. simpl. rewrite nilzero_pos.
    pose proof (uint_all_digits (Pos.to_uint p)) as Hd.
    pose proof (unsigned_pos p) as Hu.
    unfold strip. simpl lstrip.
    change (rstrip (String "-" (NilEmpty.string_of_uint (Pos.to_uint p)))) with
      (match rstrip (NilEmpty.string_of_uint (Pos.to_uint p)) with
       | EmptyString => String "-" EmptyString
       | r' => String "-" r'
       end).
    rewrite rstrip_digits by exact Hd.
    destruct (NilEmpty.string_of_uint (Pos.to_uint p)) as [|c r]; [discriminate|].
    simpl. simpl in Hu. now rewrite Hu.
Qed.

End PyStrFacts.

(** ** Dicts *)

Lemma lookup_store_same {V : Type} (k : string) (x : V) (d : list (string * V)) :
  Py.lookup k (Py.store k x d) = Some x.
Proof.
  induction d as [|[k' y] r IH]; simpl.
  - now rewrite String.eqb_refl.
  - destruct (String.eqb k' k) eqn:E; simpl; rewrite E; [reflexivity | exact IH].
Qed.

Lemma lookup_store_other {V : Type} (k k' : string) (x : V) (d : list (string * V)) :
  k' <> k -> Py.lookup k' (Py.store k x d) = Py.lookup k' d.
Proof.
  intros Hk. induction d as [|[a y] r IH]; simpl.
  - destruct (String.eqb k k') eqn:E; [|reflexivity].
    apply String.eqb_eq in E. congruence.
  - destruct (String.eqb a k) eqn:E; simpl.
    + apply String.eqb_eq in E. subst a.
      destruct (String.eqb k k') eqn:E'; [|reflexivity].
      apply String.eqb_eq in E'. congruence.
    + now rewrite IH.
Qed.

Lemma get_dict (fields : list (string * json)) (k : string) (d : json) :
  Py.get (JDict fields) k d
  = Ok (match Py.lookup k fields with Some x => x | None => d end).
Proof. unfold Py.get. now destruct (Py.lookup k fields). Qed.

(** ** Building an item *)

Lemma format_referidas (v : string) :
  format_codigo link_referidas v
  = "/ArquivoProcesso/GerarArquivoProcessoPorID/" ++ v ++ "?referidas=true".
Proof. reflexivity. Qed.

Lemma format_anexo (v : string) :
  format_codigo link_anexo v
  = "/ArquivoProcesso/GerarArquivoProcessoPorID/" ++ v ++ "?filtroAnexo=1".
Proof. reflexivity. Qed.

Lemma stripped_text_ok (lib : Library) (fields : list (string * json)) (k : string) :
  text_ok fields k = true -> exists s, stripped lib (JDict fields) k = Ok s.
Proof.
  unfold text_ok, stripped, Py.get. intros H.
  destruct (Py.lookup k fields) as [[]|]; try discriminate; simpl; eauto.
Qed.

Lemma stripped_ok_text (lib : Library) (fields : list (string * json)) (k : string) (s : string) :
  stripped lib (JDict fields) k = Ok s -> text_ok fields k = true.
Proof.
  unfold text_ok, stripped, Py.get.
  destruct (Py.lookup k fields) as [[]|]; simpl; congruence.
Qed.

Lemma traverse_authors (lib : Library) (ps : list json) :
  forallb author_ok ps = true <->
  exists names, traverse (fun p => stripped lib p "texto") ps = Ok names.
Proof.
  induction ps as [|p r IH]; simpl.
  - split; eauto.
  - rewrite andb_true_iff, IH. split.
    + intros [Hp [names Hn]]. destruct p; try discriminate.
      destruct (stripped_text_ok lib _ _ Hp) as [s Hs].
      rewrite Hs, Hn. simpl. eauto.
    + intros [names H].
      destruct (stripped lib p "texto") as [s|e] eqn:Hs; simpl in H; [|discriminate].
      destruct (traverse _ r) as [ns|e]; simpl in H; [|discriminate].
      split; [|eauto].
      destruct p; try (unfold stripped in Hs; simpl in Hs; discriminate).
      simpl. eapply (stripped_ok_text lib); eauto.
Qed.

Section Items.

Variable lib : Library.
Variable self : Spider.t.
Variable response : Response.t.

(** What an item built from a record holds, field by field. *)
Lemma create_item_inv (record : json) (item : ProposicaoItem.t) :
  create_item_from_ajax lib self record response = Ok (Some item) ->
  exists codigo natodigital,
    Py.get record "codigo" JNull = Ok codigo
    /\ Py.truthy codigo = true
    /\ Py.get record "natodigital" JNull = Ok natodigital
    /\ stripped lib record "sigla" = Ok (ProposicaoItem.type item)
    /\ Py.get record "numero" JNull = Ok (ProposicaoItem.number item)
    /\ Py.get record "ano" JNull = Ok (ProposicaoItem.year item)
    /\ ProposicaoItem.meta item = [("source_json_codigo", codigo)]
    /\ ProposicaoItem.url item
       = urljoin lib response
           (format_codigo
              (if Py.truthy natodigital then link_referidas else link_anexo)
              (Py.str codigo))
    /\ ProposicaoItem.uuid item = MD5.hexdigest (Py.str codigo)
    /\ ProposicaoItem.file_urls item = [ProposicaoItem.url item]
    /\ ProposicaoItem.md_files item
       = uf ++ "/" ++ slug ++ "/" ++ normalized_type lib (ProposicaoItem.type item)
            ++ "-" ++ Py.str (ProposicaoItem.number item)
            ++ "-" ++ Py.str (ProposicaoItem.year item) ++ ".md".
Proof.
  unfold create_item_from_ajax. intros H.
  destruct (Py.get record "codigo" JNull) as [codigo|] eqn:Hc; simpl in H; [|discriminate].
  destruct (Py.truthy codigo) eqn:Ht; simpl in H; [|discriminate].
  destruct (stripped lib record "texto") as [title|]; simpl in H; [|discriminate].
  destruct (stripped lib record "sigla") as [type|]; simpl in H; [|discriminate].
  destruct (Py.get record "numero" JNull) as [number|]; simpl in H; [|discriminate].
  destruct (Py.get record "ano" JNull) as [year|]; simpl in H; [|discriminate].
  destruct (Py.get record "promoventes" (JList [])) as [ps|]; simpl in H; [|discriminate].
  destruct (Py.iter ps) as [l|]; simpl in H; [|discriminate].
  destruct (traverse _ l) as [author|]; simpl in H; [|discriminate].
  destruct (stripped lib record "ementa") as [subject|]; simpl in H; [|discriminate].
  destruct (Py.get record "natodigital" JNull) as [nato|]; simpl in H; [|discriminate].
  injection H as <-. exists codigo, nato. simpl. repeat split; assumption || reflexivity.
Qed.

(** A valid record is read without raising: an item when it carries a
    process code, nothing otherwise. *)
Lemma create_item_valid (record : json) :
  valid_record record = true ->
  if has_code record
  then exists item, create_item_from_ajax lib self record response = Ok (Some item)
  else create_item_from_ajax lib self record response = Ok None.
Proof.
  destruct record as [| | | | |fields]; try discriminate.
  unfold valid_record, has_code, create_item_from_ajax.
  rewrite !get_dict.
  destruct (Py.lookup "codigo" fields) as [codigo|]; simpl; [|reflexivity].
  destruct (Py.truthy codigo); simpl; [|reflexivity].
  rewrite !andb_true_iff. intros [[[Ht Hs] Ha] He].
  destruct (stripped_text_ok lib _ _ Ht) as [t ->].
  destruct (stripped_text_ok lib _ _ Hs) as [s ->].
  destruct (stripped_text_ok lib _ _ He) as [e ->]. simpl.
  unfold authors_ok in Ha.
  destruct (Py.lookup "promoventes" fields) as [v|]; simpl.
  - destruct (Py.iter v) as [ps|]; [|discriminate]. simpl.
    apply (traverse_authors lib) in Ha. destruct Ha as [names ->]. simpl. eauto.
  - eauto.
Qed.

(** Conversely, a record that is read without raising is valid. *)
Lemma create_item_ok_valid (record : json) (o : option ProposicaoItem.t) :
  create_item_from_ajax lib self record response = Ok o ->
  valid_record record = true /\ (has_code record = true <-> o <> None).
Proof.
  destruct record as [| | | | |fields]; try discriminate.
  unfold valid_record, has_code, create_item_from_ajax.
  rewrite !get_dict.
  destruct (Py.lookup "codigo" fields) as [codigo|]; simpl.
  2:{ intros [= <-]. split; [reflexivity | split; congruence]. }
  destruct (Py.truthy codigo); simpl.
  2:{ intros [= <-]. split; [reflexivity | split; congruence]. }
  intros H.
  destruct (stripped lib (JDict fields) "texto") as [title|] eqn:Ht; simpl in H; [|discriminate].
  destruct (stripped lib (JDict fields) "sigla") as [type|] eqn:Hs; simpl in H; [|discriminate].
  rewrite (stripped_ok_text lib _ _ _ Ht), (stripped_ok_text lib _ _ _ Hs).
  unfold authors_ok.
  destruct (Py.lookup "promoventes" fields) as [v|]; simpl in H |- *.
  - destruct (Py.iter v) as [ps|]; simpl in H; [|discriminate].
    destruct (traverse _ ps) as [names|] eqn:Hn; simpl in H; [|discriminate].
    destruct (stripped lib (JDict fields) "ementa") as [e|] eqn:He; simpl in H; [|discriminate].
    rewrite (stripped_ok_text lib _ _ _ He).
    assert (forallb author_ok ps = true) as -> by (apply (traverse_authors lib); eauto).
    injection H as <-. split; [reflexivity | split; congruence].
  - destruct (stripped lib (JDict fields) "ementa") as [e|] eqn:He; simpl in H; [|discriminate].
    rewrite (stripped_ok_text lib _ _ _ He).
    injection H as <-. split; [reflexivity | split; congruence].
Qed.

(** Whatever a record makes the method raise, it is not a decode
    error. *)
Lemma create_item_raise (record : json) (e : exn) :
  create_item_from_ajax lib self record response = Raise e ->
  e = AttributeError \/ e = TypeError.
Proof.
  assert (Hget : forall v k d x, Py.get v k d = Raise x -> x = AttributeError).
  { intros v k d x. destruct v; simpl; try congruence.
    destruct (Py.lookup k fields); congruence. }
  assert (Hstr : forall v k x, stripped lib v k = Raise x -> x = AttributeError).
  { intros v k x. unfold stripped.
    destruct (Py.get v k (JStr EmptyString)) as [w|y] eqn:E; simpl.
    - destruct w; simpl; congruence.
    - intros [= <-]. eauto. }
  assert (Htr : forall l x,
             traverse (fun p => stripped lib p "texto") l = Raise x -> x = AttributeError).
  { induction l as [|p r IH]; simpl; intros x; [discriminate|].
    destruct (stripped lib p "texto") eqn:E; simpl; [|intros [= <-]; eauto].
    destruct (traverse _ r) eqn:E'; simpl; [discriminate | intros [= <-]; eauto]. }
  unfold create_item_from_ajax. intros H.
  destruct (Py.get record "codigo" JNull) eqn:E0; simpl in H;
    [|injection H as <-; left; eauto].
  destruct (Py.truthy a); simpl in H; [|discriminate].
  destruct (stripped lib record "texto") eqn:E1; simpl in H; [|injection H as <-; left; eauto].
  destruct (stripped lib record "sigla") eqn:E2; simpl in H; [|injection H as <-; left; eauto].
  destruct (Py.get record "numero" JNull) eqn:E3; simpl in H;
    [|injection H as <-; left; eauto].
  destruct (Py.get record "ano" JNull) eqn:E4; simpl in H;
    [|injection H as <-; left; eauto].
  destruct (Py.get record "promoventes" (JList [])) eqn:E5; simpl in H;
    [|injection H as <-; left; eauto].
  destruct (Py.iter a4) eqn:E6; simpl in H.
  2:{ injection H as <-. right. destruct a4; simpl in E6; congruence. }
  destruct (traverse _ a5) eqn:E7; simpl in H; [|injection H as <-; left; eauto].
  destruct (stripped lib record "ementa") eqn:E8; simpl in H; [|injection H as <-; left; eauto].
  destruct (Py.get record "natodigital" JNull) eqn:E9; simpl in H;
    [discriminate | injection H as <-; left; eauto].
Qed.

End Items.

(** ** The loop over a page's records *)

Lemma reach_stop (self : Spider.t) (k : nat) : limit_reached self = true -> reach self k = 0%nat.
Proof.
  destruct self as [di df [limit|] c lg]; unfold limit_reached, reach, limit_set; simpl;
    [|discriminate].
  destruct (limit =? 0); simpl; [discriminate|].
  intros H. apply Z.leb_le in H.
  replace (Z.to_nat (limit - c)) with 0%nat by lia.
  apply Nat.min_0_r.
Qed.

Lemma reach_nil (self : Spider.t) : reach self 0 = 0%nat.
Proof.
  unfold reach. destruct (Spider.total_items_limit self) as [limit|]; [|reflexivity].
  now destruct (limit_set (Some limit)).
Qed.

Lemma reach_step (self : Spider.t) (k : nat) :
  limit_reached self = false -> reach self (S k) = S (reach (Spider.count_one self) k).
Proof.
  destruct self as [di df [limit|] c lg]; unfold limit_reached, reach, limit_set; simpl;
    [|reflexivity].
  destruct (limit =? 0); simpl; [reflexivity|].
  intros H. apply Z.leb_gt in H.
  replace (Z.to_nat (limit - c)) with (S (Z.to_nat (limit - (c + 1)))) by lia.
  reflexivity.
Qed.

Section Loop.

Variable lib : Library.
Variable response : Response.t.

(** The loop reads the first [reach] records of the page and stops:
    one item for each of them that carries a process code, one count
    for each of them, with or without a code. *)
Lemma parse_loop_reach (records : list json) (self : Spider.t) :
  let n := reach self (List.length records) in
  forallb valid_record (firstn n records) = true ->
  exists items self',
    parse_loop lib self response records
    = (map YItem items,
       if (n <? List.length records)%nat then LimitReached else Exhausted,
       self')
    /\ List.length items = List.length (coded (firstn n records))
    /\ Spider.items_processed_count self'
       = Spider.items_processed_count self + Z.of_nat n
    /\ Spider.total_items_limit self' = Spider.total_items_limit self.
Proof.
  revert self. induction records as [|r rest IH]; intros self n Hv.
  - exists [], self. subst n. simpl List.length. rewrite reach_nil. simpl.
    repeat split. lia.
  - subst n. simpl List.length in *. simpl parse_loop.
    destruct (limit_reached self) eqn:Hr.
    + rewrite (reach_stop _ _ Hr). eexists [], _. simpl. repeat split.
      unfold Spider.info. simpl. lia.
    + rewrite (reach_step _ _ Hr) in *. simpl firstn in Hv. simpl in Hv.
      apply andb_true_iff in Hv. destruct Hv as [Hr1 Hrest].
      destruct (IH (Spider.count_one self) Hrest) as (items & self' & He & Hl & Hc & Hlim).
      pose proof (create_item_valid lib (Spider.count_one self) response r Hr1) as Hi.
      simpl firstn. unfold coded in *. simpl filter.
      change (S (reach (Spider.count_one self) (List.length rest))
              <? S (List.length rest))%nat
        with (reach (Spider.count_one self) (List.length rest) <? List.length rest)%nat.
      destruct (has_code r).
      * destruct Hi as [item ->]. rewrite He.
        exists (item :: items), self'. simpl in *. repeat split; try lia; assumption.
      * rewrite Hi, He. exists items, self'. simpl in *. repeat split; try lia; assumption.
Qed.

(** Every item the loop yields was built from a record of the page. *)
Lemma parse_loop_items (records : list json) (self : Spider.t) (item : ProposicaoItem.t) :
  In (YItem item) (fst (fst (parse_loop lib self response records))) ->
  exists self0 record,
    In record records
    /\ create_item_from_ajax lib self0 record response = Ok (Some item).
Proof.
  revert self. induction records as [|r rest IH]; intros self; simpl; [tauto|].
  destruct (limit_reached self); simpl; [tauto|].
  destruct (create_item_from_ajax lib (Spider.count_one self) r response)
    as [[it|]|e] eqn:E; simpl.
  - destruct (parse_loop lib (Spider.count_one self) response rest) as [[ys e] s] eqn:Ep.
    simpl. intros [[= <-]|H].
    + eauto.
    + specialize (IH (Spider.count_one self)). rewrite Ep in IH.
      destruct (IH H) as (s0 & r0 & Hin & Hc). eauto.
  - intros H. destruct (IH _ H) as (s0 & r0 & Hin & Hc). eauto.
  - tauto.
Qed.

(** The loop yields items only, and never fails with a decode error. *)
Lemma parse_loop_shape (records : list json) (self : Spider.t) :
  let '(ys, e, _) := parse_loop lib self response records in
  ys = map YItem (items_of ys) /\ e <> Failed JSONDecodeError.
Proof.
  revert self. induction records as [|r rest IH]; intros self; simpl.
  - split; [reflexivity | discriminate].
  - destruct (limit_reached self); simpl; [split; [reflexivity | discriminate]|].
    destruct (create_item_from_ajax lib (Spider.count_one self) r response)
      as [[it|]|e] eqn:E.
    + specialize (IH (Spider.count_one self)).
      destruct (parse_loop lib (Spider.count_one self) response rest) as [[ys e] s].
      simpl. destruct IH as [IH1 IH2]. split; [now rewrite <- IH1 | exact IH2].
    + apply IH.
    + split; [reflexivity|]. intros [= ->].
      apply create_item_raise in E. destruct E; discriminate.
Qed.

End Loop.

(** ** Lists of yields *)

Lemma items_of_app (a b : list yielded) : items_of (a ++ b) = (items_of a ++ items_of b)%list.
Proof. unfold items_of. apply flat_map_app. Qed.

Lemma items_of_items (items : list ProposicaoItem.t) : items_of (map YItem items) = items.
Proof. induction items as [|i r IH]; simpl; [reflexivity | now rewrite IH]. Qed.

Lemma requests_of_app (a b : list yielded) :
  requests_of (a ++ b) = (requests_of a ++ requests_of b)%list.
Proof. unfold requests_of. apply flat_map_app. Qed.

Lemma requests_of_items (items : list ProposicaoItem.t) : requests_of (map YItem items) = [].
Proof. induction items as [|i r IH]; simpl; [reflexivity | exact IH]. Qed.

Lemma coded_uncoded (records : list json) :
  (List.length (coded records) + List.length (uncoded records))%nat = List.length records.
Proof.
  unfold coded, uncoded. induction records as [|r rest IH]; simpl; [reflexivity|].
  destruct (has_code r); simpl; lia.
Qed.

Lemma coded_all (records : list json) :
  forallb has_code records = true -> coded records = records.
Proof.
  unfold coded. induction records as [|r rest IH]; simpl; [reflexivity|].
  destruct (has_code r); simpl; [|discriminate]. intros H. now rewrite IH.
Qed.

(** ** The next page *)

Lemma next_page_ok (self : Spider.t) (response : Response.t) (data_json : json)
    (p : params) (start draw total : Z) :
  Response.meta response = Some p ->
  int_param p "start" 0 = Ok start ->
  int_param p "draw" 1 = Ok draw ->
  Py.get data_json "recordsFiltered" (JInt 0) = Ok (JInt total) ->
  let next :=
    Py.store "start" (PyStr.of_Z (start + items_per_page_ajax))
      (Py.store "draw" (PyStr.of_Z (draw + 1)) p) in
  get_next_page_request self response data_json
  = if start + items_per_page_ajax <? total
    then (Spider.info self
            ("Buscando próxima página. Start: "
               ++ PyStr.of_Z (start + items_per_page_ajax)),
          Ok (Some (Request.mk (ajax_url ++ "?" ++ query_string next)
                      (Request.headers (Response.request response)) (Some next))))
    else (self, Ok None).
Proof.
  intros Hm Hs Hd Hr next. unfold get_next_page_request.
  rewrite Hr, Hm, Hs. simpl.
  destruct (start + items_per_page_ajax <? total); [|reflexivity].
  rewrite Hd. reflexivity.
Qed.

Lemma next_params_read (p : params) (start draw : Z) :
  let next := Py.store "start" (PyStr.of_Z start) (Py.store "draw" (PyStr.of_Z draw) p) in
  int_param next "start" 0 = Ok start
  /\ int_param next "draw" 1 = Ok draw
  /\ forall k, k <> "start" -> k <> "draw" -> Py.lookup k next = Py.lookup k p.
Proof.
  intros next. subst next. unfold int_param. repeat split.
  - now rewrite lookup_store_same, PyStrFacts.to_Z_of_Z.
  - rewrite lookup_store_other by discriminate.
    now rewrite lookup_store_same, PyStrFacts.to_Z_of_Z.
  - intros k H1 H2. now rewrite !lookup_store_other by assumption.
Qed.

(** Nothing in the method raises a decode error. *)
Lemma next_page_raise (self : Spider.t) (response : Response.t) (data_json : json) :
  snd (get_next_page_request self response data_json) <> Raise JSONDecodeError.
Proof.
  assert (Hp : forall p k d, int_param p k d <> Raise JSONDecodeError).
  { intros p k d. unfold int_param.
    destruct (Py.lookup k p); [destruct (PyStr.to_Z s)|]; discriminate. }
  unfold get_next_page_request.
  destruct (Py.get data_json "recordsFiltered" (JInt 0)) as [total|e] eqn:E; simpl.
  2:{ destruct data_json; simpl in E; try (injection E as <-; discriminate).
      destruct (Py.lookup "recordsFiltered" fields); discriminate. }
  destruct (int_param _ "start" 0) as [start|e] eqn:Es; simpl.
  2:{ intros [= ->]. now apply Hp in Es. }
  destruct (Py.int_lt _ total) as [more|e] eqn:El; simpl.
  2:{ destruct total; simpl in El; try (injection El as <-); discriminate. }
  destruct more; simpl; [|discriminate].
  destruct (Response.meta response) as [p|]; simpl; [|discriminate].
  destruct (int_param p "draw" 1) as [draw|e] eqn:Ed; simpl; [discriminate|].
  intros [= ->]. now apply Hp in Ed.
Qed.

Lemma next_page_state (self : Spider.t) (response : Response.t) (data_json : json) :
  let self' := fst (get_next_page_request self response data_json) in
  Spider.items_processed_count self' = Spider.items_processed_count self
  /\ Spider.total_items_limit self' = Spider.total_items_limit self.
Proof.
  unfold get_next_page_request.
  destruct (bind _ _) as [[[n r]|]|e]; simpl; split; reflexivity.
Qed.

(** ** One page *)

Section Page.

Variable lib : Library.

(** [parse] on a page that decodes: the loop reads the first [reach]
    records, and the next page is asked for only when the loop came to
    the end of the page with the limit not met. *)
Lemma parse_reach (self : Spider.t) (response : Response.t) (page : json)
    (records : list json) :
  json_loads lib (Response.text response) = Some page ->
  records_of_page page = Ok records ->
  let n := reach self (List.length records) in
  forallb valid_record (firstn n records) = true ->
  exists items self1,
    List.length items = List.length (coded (firstn n records))
    /\ Spider.items_processed_count self1
       = Spider.items_processed_count self + Z.of_nat n
    /\ Spider.total_items_limit self1 = Spider.total_items_limit self
    /\ parse lib self response
       = if (n <? List.length records)%nat then (map YItem items, Returned, self1)
         else if negb (limit_set (Spider.total_items_limit self)) || below_limit self1
         then
           match get_next_page_request self1 response page with
           | (s, Raise ex) => (map YItem items, Raised ex, s)
           | (s, Ok None) => (map YItem items ++ [YNone], Returned, s)%list
           | (s, Ok (Some request)) =>
               (map YItem items ++ [YRequest request], Returned, s)%list
           end
         else (map YItem items, Returned, self1).
Proof.
  intros Hj Hr n Hv.
  destruct (parse_loop_reach lib response records self Hv)
    as (items & self1 & Hl & Hlen & Hc & Hlim).
  exists items, self1. repeat split; try assumption.
  unfold parse. rewrite Hj, Hr, Hl. fold n.
  destruct (n <? List.length records)%nat; [reflexivity|].
  rewrite Hlim. reflexivity.
Qed.

End Page.

Lemma forallb_firstn {A : Type} (f : A -> bool) (n : nat) (l : list A) :
  forallb f l = true -> forallb f (firstn n l) = true.
Proof.
  revert n. induction l as [|a r IH]; intros n; [now rewrite firstn_nil|].
  destruct n; simpl; [reflexivity|].
  rewrite !andb_true_iff. intros [Ha Hr]. split; [exact Ha | now apply IH].
Qed.

(** The limit leaves room for a whole page when it is not set, or when
    the page fits under it. *)
Lemma reach_room (self : Spider.t) (limit : Z) (k : nat) :
  Spider.total_items_limit self = Some limit ->
  Spider.items_processed_count self + Z.of_nat k <= limit ->
  reach self k = k.
Proof.
  intros Hl Hk. unfold reach. rewrite Hl.
  destruct (limit_set (Some limit)); [|reflexivity]. apply Nat.min_l. lia.
Qed.

(** Every item [parse] yields was built by [create_item_from_ajax] from
    a record of the page. *)
Lemma parse_items_built (lib : Library) (self : Spider.t) (response : Response.t)
    (item : ProposicaoItem.t) :
  In item (items_of (fst (fst (parse lib self response)))) ->
  exists self0 record, create_item_from_ajax lib self0 record response = Ok (Some item).
Proof.
  unfold parse.
  destruct (json_loads lib (Response.text response)) as [page|]; [|simpl; tauto].
  destruct (records_of_page page) as [records|]; [|simpl; tauto].
  pose proof (parse_loop_items lib response records self item) as Hi.
  pose proof (parse_loop_shape lib response records self) as Hs.
  destruct (parse_loop lib self response records) as [[ys e] s]. simpl in Hi.
  destruct Hs as [Hs _].
  assert (Hin : In item (items_of ys) -> exists self0 record,
               create_item_from_ajax lib self0 record response = Ok (Some item)).
  { intros H. rewrite Hs in Hi. destruct Hi as (s0 & r & _ & Hc); [|eauto].
    apply in_map. exact H. }
  destruct e; simpl; try exact Hin.
  destruct (negb _ || _); [|exact Hin].
  destruct (get_next_page_request s response page) as [s' [[rq|]|ex]]; simpl;
    rewrite ?items_of_app; simpl items_of; rewrite ?List.app_nil_r; exact Hin.
Qed.

(** * The properties of the specification *)

(** C1, amended.  On a page of K valid records of which M lack a process
    code, read with room under the limit for the whole page, [parse]
    yields exactly K - M items and the processed count grows by K: the
    count is raised for every record the loop reads, before the record
    is looked at, so a skipped record counts against the limit too. *)
Theorem skipped_records_are_counted (lib : Library) (self : Spider.t)
    (response : Response.t) (page : json) (records : list json) :
  json_loads lib (Response.text response) = Some page ->
  records_of_page page = Ok records ->
  forallb valid_record records = true ->
  reach self (List.length records) = List.length records ->
  let '(ys, _, self') := parse lib self response in
  Z.of_nat (List.length (items_of ys))
  = Z.of_nat (List.length records) - Z.of_nat (List.length (uncoded records))
  /\ Spider.items_processed_count self'
     = Spider.items_processed_count self + Z.of_nat (List.length records).
Proof.
  intros Hj Hr Hv Hn.
  destruct (parse_reach lib self response page records Hj Hr) as
    (items & self1 & Hlen & Hc & Hlim & Hp).
  { now apply forallb_firstn. }
  rewrite Hn, firstn_all in *. rewrite Nat.ltb_irrefl in Hp.
  pose proof (coded_uncoded records) as Hcu.
  pose proof (next_page_state self1 response page) as [Hc' _].
  rewrite Hp.
  destruct (negb (limit_set (Spider.total_items_limit self)) || below_limit self1).
  - destruct (get_next_page_request self1 response page) as [s [[rq|]|ex]];
      simpl in Hc'; rewrite ?items_of_app, ?items_of_items, ?length_app; simpl; lia.
  - rewrite items_of_items. lia.
Qed.

Lemma skipped_records_are_counted_witness :
  let '(ys, _, self') := parse library spider0 (respond mixed_page) in
  Z.of_nat (List.length (items_of ys)) = 2 - 1
  /\ Spider.items_processed_count self' = 0 + 2.
Proof.
  generalize (skipped_records_are_counted library spider0 (respond mixed_page)
                mixed_json mixed_records).
  vm_compute. intros H. apply H; reflexivity.
Defined.

(** C1 as stated fails: of the two records of [mixed_page] one lacks a
    process code, one item is yielded, and the count has grown by two. *)
Lemma skip_semantics_fails : ~ Stated.skip_semantics library spider0 (respond mixed_page).
Proof.
  intros H. generalize (H mixed_json mixed_records). clear H.
  vm_compute. intros H.
  destruct H as [_ E]; [reflexivity | reflexivity | reflexivity | discriminate E].
Qed.




Lemma records_of_page_raise (page : json) (e : exn) :
  records_of_page page = Raise e -> e <> JSONDecodeError.
Proof.
  unfold records_of_page. destruct page; simpl; try (intros [= <-]; discriminate).
  destruct (Py.lookup "data" fields) as [[]|]; simpl; intros [= <-]; discriminate.
Qed.

Lemma next_page_valid (self : Spider.t) (response : Response.t) (page total : json) :
  Py.get page "recordsFiltered" (JInt 0) = Ok total ->
  is_int total = true ->
  valid_request (Response.request response) = true ->
  exists o, snd (get_next_page_request self response page) = Ok o.
Proof.
  intros Ht Hi Hr. unfold get_next_page_request, valid_request, Response.meta in *.
  rewrite Ht. simpl.
  destruct (Request.meta (Response.request response)) as [p|]; [|discriminate].
  apply andb_true_iff in Hr. destruct Hr as [Hs Hd].
  destruct (int_param p "start" 0) as [start|]; [|discriminate]. simpl.
  destruct (int_param p "draw" 1) as [draw|]; [|discriminate].
  destruct total; try discriminate; simpl.
  - destruct (start + items_per_page_ajax <? _); simpl; eauto.
  - destruct (start + items_per_page_ajax <? n); simpl; eauto.
Qed.

(** C2, amended.  [parse] fails with a decode error exactly when the body
    is not valid JSON.  A decoded object that lacks the [data] field is no
    failure: it is read as a page without records.  On every page whose
    records are valid and whose filtered total is a number or absent,
    answered to a request that carries integer [start] and [draw],
    [parse] returns normally. *)
Theorem parse_failure (lib : Library) (self : Spider.t) (response : Response.t) :
  (snd (fst (parse lib self response)) = Raised JSONDecodeError
   <-> json_loads lib (Response.text response) = None)
  /\ (forall fields,
        Py.lookup "data" fields = None -> records_of_page (JDict fields) = Ok [])
  /\ (forall page,
        json_loads lib (Response.text response) = Some page ->
        valid_page page = true ->
        valid_request (Response.request response) = true ->
        snd (fst (parse lib self response)) = Returned).
Proof.
  split; [|split].
  - split.
    + unfold parse.
      destruct (json_loads lib (Response.text response)) as [page|]; [|reflexivity].
      destruct (records_of_page page) as [records|e] eqn:Er; simpl.
      { pose proof (parse_loop_shape lib response records self) as Hs.
        destruct (parse_loop lib self response records) as [[ys e] s].
        destruct Hs as [_ He].
        destruct e; simpl; try discriminate.
        - destruct (negb _ || _); simpl; [|discriminate].
          pose proof (next_page_raise s response page) as Hn.
          destruct (get_next_page_request s response page) as [s' [[rq|]|ex]];
            simpl in *; congruence.
        - congruence. }
      { intros [= ->]. now apply records_of_page_raise in Er. }
    + intros H. unfold parse. now rewrite H.
  - intros fields H. unfold records_of_page. rewrite get_dict, H. reflexivity.
  - intros page Hj Hv Hr. unfold valid_page in Hv.
    destruct (records_of_page page) as [records|] eqn:Erec; [|discriminate].
    destruct (Py.get page "recordsFiltered" (JInt 0)) as [total|] eqn:Et; [|discriminate].
    apply andb_true_iff in Hv. destruct Hv as [Hv Hi].
    destruct (parse_reach lib self response page records Hj Erec) as
      (items & self1 & _ & _ & _ & Hp).
    { now apply forallb_firstn. }
    rewrite Hp. destruct (_ <? _)%nat; [reflexivity|].
    destruct (negb _ || _); [|reflexivity].
    destruct (next_page_valid self1 response page total Et Hi Hr) as [o Ho].
    destruct (get_next_page_request self1 response page) as [s r]. simpl in Ho. subst r.
    now destruct o.
Qed.

Lemma parse_failure_witness :
  json_loads library (Response.text (respond bare_page)) = Some (JDict [])
  /\ snd (fst (parse library spider0 (respond bare_page))) = Returned.
Proof.
  split; [vm_compute; reflexivity|].
  apply (proj2 (proj2 (parse_failure library spider0 (respond bare_page))) (JDict []));
    vm_compute; reflexivity.
Defined.

(** C2 as stated fails: the body [{}] is valid JSON without the array of
    records, and [parse] returns normally on it. *)
Lemma malformed_response_fails :
  ~ Stated.malformed_response library spider0 (respond bare_page).
Proof.
  intros [_ H]. destruct H as [e He].
  - right. exists (JDict []). split; vm_compute; reflexivity.
  - vm_compute in He. discriminate He.
Qed.



Lemma stripped_is_strip (lib : Library) (record : json) (k : string) (t : string) :
  stripped lib record k = Ok t ->
  exists s, Py.get record k (JStr EmptyString) = Ok (JStr s) /\ t = str_strip lib s.
Proof.
  unfold stripped. destruct (Py.get record k (JStr EmptyString)) as [v|]; simpl; [|discriminate].
  destruct v; simpl; try discriminate. intros [= <-]. eauto.
Qed.

(** C6, amended.  The storage path of an item is [SP/sp-sao-paulo/]
    followed by the normalized type, the number and the year joined by
    hyphens, and [.md].  The item's type is the record's type code
    trimmed, and the normalized type is that trimmed type code
    lower-cased with its spaces turned into hyphens, or [unknown] when
    nothing is left of the type code after trimming: an absent, an empty
    and a blank type code all give [unknown].  [strip] and [lower] are
    Python's, whatever they do to a text. *)
Theorem storage_path (lib : Library) (self : Spider.t) (record : json)
    (response : Response.t) (item : ProposicaoItem.t) :
  create_item_from_ajax lib self record response = Ok (Some item) ->
  exists type_code,
    Py.get record "sigla" (JStr EmptyString) = Ok (JStr type_code)
    /\ ProposicaoItem.type item = str_strip lib type_code
    /\ ProposicaoItem.md_files item
       = "SP/sp-sao-paulo/"
           ++ (if String.eqb (str_strip lib type_code) EmptyString then "unknown"
               else PyStr.replace " " "-" (str_lower lib (str_strip lib type_code)))
           ++ "-" ++ Py.str (ProposicaoItem.number item)
           ++ "-" ++ Py.str (ProposicaoItem.year item) ++ ".md".
Proof.
  intros H. apply create_item_inv in H.
  destruct H as (codigo & nato & _ & _ & _ & Hs & _ & _ & _ & _ & _ & _ & Hp).
  destruct (stripped_is_strip lib _ _ _ Hs) as (s & Hg & Es).
  exists s. split; [exact Hg|]. split; [exact Es|].
  rewrite Hp, Es. reflexivity.
Qed.

Lemma storage_path_witness :
  exists item,
    create_item_from_ajax library spider0 pl_record (respond bare_page) = Ok (Some item)
    /\ ProposicaoItem.md_files item = "SP/sp-sao-paulo/pl-123-2024.md".
Proof.
  destruct (create_item_from_ajax library spider0 pl_record (respond bare_page))
    as [[item|]|e] eqn:E; [|vm_compute in E; discriminate E ..].
  exists item. split; [reflexivity|].
  destruct (storage_path _ _ _ _ _ E) as (t & Ht & _ & Hp). rewrite Hp.
  injection Ht as <-.
  vm_compute in E. injection E as <-. vm_compute. reflexivity.
Defined.

(** C6 as stated fails: for a type code of one blank the path starts
    with [unknown], where the stated normalization of a type code that
    is not empty leaves an empty segment. *)
Lemma stated_storage_path_fails :
  ~ Stated.storage_path library spider0 (respond bare_page) blank_type_record.
Proof.
  intros H.
  destruct (create_item_from_ajax library spider0 blank_type_record (respond bare_page))
    as [[item|]|e] eqn:E; [|vm_compute in E; discriminate E ..].
  specialize (H " " item eq_refl E).
  vm_compute in E. injection E as <-. vm_compute in H. discriminate H.
Qed.

(** C7.  The download URL of an item is [response.urljoin] of
    [/ArquivoProcesso/GerarArquivoProcessoPorID/], the process code, and
    [?referidas=true] when the record's [natodigital] is true,
    [?filtroAnexo=1] otherwise; the item's file-download list holds that
    URL and nothing else. *)
Theorem download_url (lib : Library) (self : Spider.t) (record : json)
    (response : Response.t) (item : ProposicaoItem.t) :
  create_item_from_ajax lib self record response = Ok (Some item) ->
  exists codigo natodigital,
    Py.get record "codigo" JNull = Ok codigo
    /\ Py.get record "natodigital" JNull = Ok natodigital
    /\ ProposicaoItem.url item
       = urljoin lib response
           ("/ArquivoProcesso/GerarArquivoProcessoPorID/" ++ Py.str codigo
              ++ (if Py.truthy natodigital then "?referidas=true" else "?filtroAnexo=1"))
    /\ ProposicaoItem.file_urls item = [ProposicaoItem.url item].
Proof.
  intros H. apply create_item_inv in H.
  destruct H as (codigo & nato & Hc & _ & Hn & _ & _ & _ & _ & Hu & _ & Hf & _).
  exists codigo, nato. repeat split; try assumption.
  rewrite Hu. destruct (Py.truthy nato); [now rewrite format_referidas | now rewrite format_anexo].
Qed.

Lemma download_url_witness :
  exists item,
    create_item_from_ajax library spider0 pl_record (respond bare_page) = Ok (Some item)
    /\ ProposicaoItem.file_urls item
       = ["https://splegisconsulta.saopaulo.sp.leg.br/ArquivoProcesso/GerarArquivoProcessoPorID/X1?referidas=true"].
Proof.
  destruct (create_item_from_ajax library spider0 pl_record (respond bare_page))
    as [[item|]|e] eqn:E; [|vm_compute in E; discriminate E ..].
  exists item. split; [reflexivity|].
  destruct (download_url _ _ _ _ _ E) as (codigo & nato & Hc & Hn & Hu & Hf).
  rewrite Hf, Hu. injection Hc as <-. injection Hn as <-. vm_compute. reflexivity.
Defined.

(** ** The digest and its hexadecimal form *)

Lemma le_bytes_range (n : nat) (x : Z) : Forall is_byte (MD5.le_bytes n x).
Proof.
  revert x. induction n as [|n IH]; intros x; simpl; constructor; [|apply IH].
  change 255 with (Z.ones 8). rewrite Z.land_ones by lia.
  unfold is_byte. change 256 with (2 ^ 8). apply Z.mod_pos_bound. lia.
Qed.

Lemma digest_range (msg : list Z) : Forall is_byte (MD5.digest msg).
Proof.
  unfold MD5.digest.
  destruct (MD5.blocks _ _ _) as [[[a b] c] d].
  repeat (apply Forall_app; split); apply le_bytes_range.
Qed.

Lemma hex_char_inj (x y : Z) :
  0 <= x < 16 -> 0 <= y < 16 -> MD5.hex_char x = MD5.hex_char y -> x = y.
Proof.
  intros Hx Hy H. unfold MD5.hex_char in H.
  apply (f_equal nat_of_ascii) in H.
  destruct (Z.ltb_spec x 10), (Z.ltb_spec y 10);
    rewrite 2 nat_ascii_embedding in H by lia; lia.
Qed.

Lemma hex_inj (a b : list Z) :
  Forall is_byte a -> Forall is_byte b -> MD5.hex a = MD5.hex b -> a = b.
Proof.
  intros Ha. revert b. induction Ha as [|x a Hx Ha IH]; intros b Hb H.
  - destruct b; [reflexivity | discriminate H].
  - destruct Hb as [|y b Hy Hb]; [discriminate H|].
    simpl in H. injection H as H1 H2 H3.
    unfold is_byte in Hx, Hy.
    rewrite 2 Z.shiftr_div_pow2 in H1 by lia.
    change 15 with (Z.ones 4) in H2. rewrite !Z.land_ones in H2 by lia.
    change (2 ^ 4) with 16 in *.
    apply hex_char_inj in H1; [|split; [apply Z.div_pos | apply Z.div_lt_upper_bound]; lia ..].
    apply hex_char_inj in H2; [|apply Z.mod_pos_bound; lia ..].
    f_equal; [|now apply IH].
    rewrite (Z.div_mod x 16), (Z.div_mod y 16) by lia. congruence.
Qed.

(** C8, amended.  The content identifier of an item is the hexadecimal MD5
    digest of the process code's string form, whatever the run: the same
    process code always gives the same identifier, and two process codes
    whose string forms differ give different identifiers unless these
    string forms collide under MD5.  (Two different codes with one string
    form, the number 123 and the text "123", share their identifier.) *)
Theorem content_identifier (lib1 lib2 : Library) (self1 self2 : Spider.t)
    (response1 response2 : Response.t) (record1 record2 codigo1 codigo2 : json)
    (item1 item2 : ProposicaoItem.t) :
  Py.get record1 "codigo" JNull = Ok codigo1 ->
  Py.get record2 "codigo" JNull = Ok codigo2 ->
  create_item_from_ajax lib1 self1 record1 response1 = Ok (Some item1) ->
  create_item_from_ajax lib2 self2 record2 response2 = Ok (Some item2) ->
  ProposicaoItem.uuid item1 = MD5.hexdigest (Py.str codigo1)
  /\ (codigo1 = codigo2 -> ProposicaoItem.uuid item1 = ProposicaoItem.uuid item2)
  /\ (Py.str codigo1 <> Py.str codigo2 ->
      ProposicaoItem.uuid item1 <> ProposicaoItem.uuid item2
      \/ md5_collision (Py.str codigo1) (Py.str codigo2)).
Proof.
  intros Hc1 Hc2 H1 H2.
  apply create_item_inv in H1. apply create_item_inv in H2.
  destruct H1 as (c1 & n1 & Hc1' & _ & _ & _ & _ & _ & _ & _ & Hu1 & _).
  destruct H2 as (c2 & n2 & Hc2' & _ & _ & _ & _ & _ & _ & _ & Hu2 & _).
  assert (c1 = codigo1) by congruence. assert (c2 = codigo2) by congruence. subst c1 c2.
  split; [exact Hu1|]. split.
  - intros ->. congruence.
  - intros Hne.
    destruct (string_dec (ProposicaoItem.uuid item1) (ProposicaoItem.uuid item2)) as [E|E];
      [right | left; exact E].
    split; [exact Hne|].
    rewrite Hu1, Hu2 in E. unfold MD5.hexdigest in E.
    apply hex_inj in E; [exact E | apply digest_range ..].
Qed.

Lemma content_identifier_witness :
  exists item,
    create_item_from_ajax library spider0 pl_record (respond bare_page) = Ok (Some item)
    /\ ProposicaoItem.uuid item = "bb7f5ae6220c9828e5ec91faf054197c".
Proof.
  destruct (create_item_from_ajax library spider0 pl_record (respond bare_page))
    as [[item|]|e] eqn:E; [|vm_compute in E; discriminate E ..].
  exists item. split; [reflexivity|].
  destruct (content_identifier _ _ _ _ _ _ pl_record pl_record (JStr "X1") (JStr "X1")
              _ _ eq_refl eq_refl E E) as [Hu _].
  rewrite Hu. vm_compute. reflexivity.
Defined.

(** C8 as stated fails: the process codes 123 and "123" are different,
    their items carry the same identifier, and there is no collision,
    since MD5 is given the same text twice. *)
Lemma distinct_identifiers_fails :
  ~ Stated.distinct_identifiers library spider0 (respond bare_page) code_only code_text.
Proof.
  intros H.
  destruct (create_item_from_ajax library spider0 code_only (respond bare_page))
    as [[item1|]|e1] eqn:E1; [|vm_compute in E1; discriminate E1 ..].
  destruct (create_item_from_ajax library spider0 code_text (respond bare_page))
    as [[item2|]|e2] eqn:E2; [|vm_compute in E2; discriminate E2 ..].
  specialize (H (JInt 123) (JStr "123") item1 item2 eq_refl eq_refl E1 E2).
  vm_compute in E1, E2. injection E1 as <-. injection E2 as <-.
  destruct H as [N|[N _]]; [discriminate | |]; apply N; reflexivity.
Qed.



(** ** A limit that is not set *)

Lemma with_limit_id (self : Spider.t) (limit : option Z) :
  Spider.total_items_limit self = limit -> Spider.with_limit self limit = self.
Proof. destruct self. simpl. now intros ->. Qed.

Lemma with_limit_back (self : Spider.t) (limit : option Z) :
  Spider.with_limit (Spider.with_limit self limit) (Spider.total_items_limit self) = self.
Proof. now destruct self. Qed.

Lemma unset_not_reached (self : Spider.t) :
  limit_set (Spider.total_items_limit self) = false -> limit_reached self = false.
Proof. unfold limit_reached. now intros ->. Qed.

Section Unset.

Variable lib : Library.

Lemma parse_loop_limit (response : Response.t) (records : list json) (self : Spider.t) :
  Spider.total_items_limit (snd (parse_loop lib self response records))
  = Spider.total_items_limit self.
Proof.
  revert self. induction records as [|r rest IH]; intros self; simpl; [reflexivity|].
  destruct (limit_reached self); [reflexivity|].
  destruct (create_item_from_ajax lib (Spider.count_one self) r response) as [[item|]|e].
  - specialize (IH (Spider.count_one self)).
    destruct (parse_loop lib (Spider.count_one self) response rest) as [[ys e] s].
    exact IH.
  - apply (IH (Spider.count_one self)).
  - reflexivity.
Qed.

Lemma parse_limit (response : Response.t) (self : Spider.t) :
  Spider.total_items_limit (snd (parse lib self response))
  = Spider.total_items_limit self.
Proof.
  unfold parse.
  destruct (json_loads lib (Response.text response)) as [page|]; [|reflexivity].
  destruct (records_of_page page) as [records|]; [|reflexivity].
  pose proof (parse_loop_limit response records self) as Hl.
  destruct (parse_loop lib self response records) as [[ys e] s]. simpl in Hl.
  destruct e; try exact Hl.
  destruct (negb _ || _); [|exact Hl].
  pose proof (next_page_state s response page) as [_ Hn].
  destruct (get_next_page_request s response page) as [s' [[rq|]|ex]];
    simpl in *; congruence.
Qed.

(** With a limit that is not set, the loop reads the page as it does
    with no limit. *)
Lemma parse_loop_unset (response : Response.t) (records : list json) (self : Spider.t) :
  limit_set (Spider.total_items_limit self) = false ->
  parse_loop lib self response records
  = let '(ys, e, s) := parse_loop lib (Spider.with_limit self None) response records in
    (ys, e, Spider.with_limit s (Spider.total_items_limit self)).
Proof.
  revert self. induction records as [|r rest IH]; intros self Hu; simpl.
  - now rewrite with_limit_back.
  - rewrite (unset_not_reached self Hu).
    change (limit_reached (Spider.with_limit self None)) with false. cbv iota.
    change (create_item_from_ajax lib (Spider.count_one (Spider.with_limit self None))
              r response)
      with (create_item_from_ajax lib (Spider.count_one self) r response).
    destruct (create_item_from_ajax lib (Spider.count_one self) r response)
      as [[item|]|e].
    + rewrite (IH (Spider.count_one self) Hu).
      change (Spider.with_limit (Spider.count_one self) None)
        with (Spider.count_one (Spider.with_limit self None)).
      now destruct (parse_loop lib _ response rest) as [[ys e] s].
    + rewrite (IH (Spider.count_one self) Hu). reflexivity.
    + now destruct self.
Qed.

Lemma next_page_with_limit (self : Spider.t) (response : Response.t) (page : json)
    (limit : option Z) :
  get_next_page_request (Spider.with_limit self limit) response page
  = let '(s, r) := get_next_page_request self response page in
    (Spider.with_limit s limit, r).
Proof.
  unfold get_next_page_request.
  destruct (bind _ _) as [[[n rq]|]|e]; reflexivity.
Qed.

Lemma parse_unset (response : Response.t) (self : Spider.t) :
  limit_set (Spider.total_items_limit self) = false ->
  parse lib self response
  = let '(ys, e, s) := parse lib (Spider.with_limit self None) response in
    (ys, e, Spider.with_limit s (Spider.total_items_limit self)).
Proof.
  intros Hu. unfold parse.
  change (Response.text response) with (Response.text response).
  destruct (json_loads lib (Response.text response)) as [page|];
    [|now rewrite with_limit_back].
  destruct (records_of_page page) as [records|]; [|now rewrite with_limit_back].
  rewrite (parse_loop_unset response records self Hu).
  pose proof (parse_loop_limit response records (Spider.with_limit self None)) as Hl.
  destruct (parse_loop lib (Spider.with_limit self None) response records)
    as [[ys e] s]. simpl in Hl.
  destruct e; try reflexivity.
  rewrite Hl. simpl Spider.total_items_limit at 1. rewrite Hu. simpl.
  rewrite <- (with_limit_id s None Hl) at 2.
  rewrite next_page_with_limit.
  rewrite (with_limit_id s None Hl).
  destruct (get_next_page_request s response page) as [s' [[rq|]|ex]]; reflexivity.
Qed.

Lemma crawl_unset (server : Request.t -> string) (fuel : nat) (self : Spider.t)
    (queue : list Request.t) :
  limit_set (Spider.total_items_limit self) = false ->
  crawl lib server fuel self queue
  = option_map
      (fun r => let '(requests, items, s) := r in
                (requests, items, Spider.with_limit s (Spider.total_items_limit self)))
      (crawl lib server fuel (Spider.with_limit self None) queue).
Proof.
  revert self queue. induction fuel as [|fuel IH]; intros self queue Hu.
  - destruct queue; simpl; [now rewrite with_limit_back | reflexivity].
  - destruct queue as [|request rest]; simpl; [now rewrite with_limit_back|].
    set (response := Response.mk (Request.url request) (server request) request).
    rewrite (parse_unset response self Hu).
    pose proof (parse_limit response (Spider.with_limit self None)) as Hl.
    destruct (parse lib (Spider.with_limit self None) response) as [[ys e] s].
    simpl in Hl.
    rewrite IH by exact Hu.
    change (Spider.with_limit
              (Spider.with_limit s (Spider.total_items_limit self)) None)
      with (Spider.with_limit s None).
    rewrite (with_limit_id s None Hl).
    now destruct (crawl lib server fuel s _) as [[[rqs its] s']|].
Qed.

End Unset.

(** C9.  A limit of zero is a limit that is not set.  Given as the
    number 0 the limit is stored as no limit at all; given as the text
    ["0"] it is stored as 0, which every test of the limit takes for
    unset: the same message is logged, [parse] yields and ends as it
    does with no limit, and so does a whole run, the stored limit being
    the only difference in the spider afterwards. *)
Theorem zero_limit_is_no_limit :
  (forall data_inicio data_fim,
      __init__ data_inicio data_fim (ArgInt 0) = __init__ data_inicio data_fim ArgNone)
  /\ (forall data_inicio data_fim,
         __init__ data_inicio data_fim (ArgStr "0")
         = (self <- __init__ data_inicio data_fim ArgNone ;;
            Ok (Spider.with_limit self (Some 0))))
  /\ (forall lib self response,
         parse lib (Spider.with_limit self (Some 0)) response
         = let '(ys, e, s) := parse lib (Spider.with_limit self None) response in
           (ys, e, Spider.with_limit s (Some 0)))
  /\ (forall lib server fuel self,
         run lib server fuel (Spider.with_limit self (Some 0))
         = option_map
             (fun r => let '(requests, items, s) := r in
                       (requests, items, Spider.with_limit s (Some 0)))
             (run lib server fuel (Spider.with_limit self None))).
Proof.
  repeat split.
  - intros lib self response.
    apply (parse_unset lib response (Spider.with_limit self (Some 0))). reflexivity.
  - intros lib server fuel self. unfold run.
    apply (crawl_unset lib server fuel (Spider.with_limit self (Some 0))). reflexivity.
Qed.

(** ** The walk *)

Lemma reach_unset (self : Spider.t) (k : nat) :
  limit_set (Spider.total_items_limit self) = false -> reach self k = k.
Proof.
  unfold reach. destruct (Spider.total_items_limit self) as [limit|]; [|reflexivity].
  now intros ->.
Qed.

Lemma first_params_read (self : Spider.t) :
  int_param (first_params self) "start" 0 = Ok 0
  /\ int_param (first_params self) "draw" 1 = Ok 1.
Proof.
  unfold int_param, first_params, put_if_given.
  destruct (Spider.data_fim self) as [f|], (Spider.data_inicio self) as [i|];
    try destruct (String.eqb f EmptyString); try destruct (String.eqb i EmptyString);
    rewrite ?lookup_store_other by discriminate; split; reflexivity.
Qed.

Lemma crawl_nil (lib : Library) (server : Request.t -> string) (fuel : nat)
    (self : Spider.t) :
  crawl lib server fuel self [] = Some ([], [], self).
Proof. now destruct fuel. Qed.

(** A page that yields no request ends the walk. *)
Lemma crawl_single (lib : Library) (server : Request.t -> string) (fuel : nat)
    (self : Spider.t) (request : Request.t) :
  requests_of
    (fst (fst (parse lib self
                 (Response.mk (Request.url request) (server request) request)))) = [] ->
  exists items self',
    crawl lib server (S fuel) self [request] = Some ([request], items, self').
Proof.
  intros H. simpl crawl.
  destruct (parse lib self _) as [[ys e] s]. simpl in H.
  rewrite H. simpl app. rewrite crawl_nil. eauto.
Qed.

Section Walk.

Variable lib : Library.
Variable server : Request.t -> string.
Variable total : Z.
Hypothesis served : forall request, serves lib total (server request) = true.

(** One page of the walk, with no limit set: the page yields the next
    request exactly when there are records beyond it. *)
Lemma parse_served (self : Spider.t) (request : Request.t) (p : params)
    (start draw : Z) :
  limit_set (Spider.total_items_limit self) = false ->
  Request.meta request = Some p ->
  int_param p "start" 0 = Ok start ->
  int_param p "draw" 1 = Ok draw ->
  let response := Response.mk (Request.url request) (server request) request in
  let next :=
    Py.store "start" (PyStr.of_Z (start + items_per_page_ajax))
      (Py.store "draw" (PyStr.of_Z (draw + 1)) p) in
  exists ys e self',
    parse lib self response = (ys, e, self')
    /\ limit_set (Spider.total_items_limit self') = false
    /\ requests_of ys
       = if start + items_per_page_ajax <? total
         then [Request.mk (ajax_url ++ "?" ++ query_string next)
                 (Request.headers request) (Some next)]
         else [].
Proof.
  intros Hu Hm Hs Hd response next.
  pose proof (served request) as Hsv. unfold serves in Hsv.
  destruct (json_loads lib (server request)) as [page|] eqn:Hj; [|discriminate].
  apply andb_true_iff in Hsv. destruct Hsv as [Hv Ht].
  destruct (Py.get page "recordsFiltered" (JInt 0)) as [[]|] eqn:Hr; try discriminate.
  apply Z.eqb_eq in Ht. subst n.
  unfold valid_page in Hv. rewrite Hr in Hv.
  destruct (records_of_page page) as [records|] eqn:Erec; [|discriminate].
  apply andb_true_iff in Hv. destruct Hv as [Hv _].
  destruct (parse_reach lib self response page records Hj Erec) as
    (items & self1 & _ & _ & Hlim & Hp).
  { now apply forallb_firstn. }
  rewrite (reach_unset self _ Hu), Nat.ltb_irrefl, Hu in Hp. simpl in Hp.
  rewrite (next_page_ok self1 response page p start draw total Hm Hs Hd Hr) in Hp.
  fold next in Hp.
  destruct (start + items_per_page_ajax <? total); rewrite Hp.
  - eexists _, _, _. split; [reflexivity|]. split; [simpl; congruence|].
    now rewrite requests_of_app, requests_of_items.
  - eexists _, _, _. split; [reflexivity|]. split; [congruence|].
    now rewrite requests_of_app, requests_of_items.
Qed.

(** From a request at offset [start] the walk issues one request for
    each page that is left, at least one, and stops. *)
Lemma crawl_pages (n : nat) :
  forall (self : Spider.t) (request : Request.t) (p : params) (start draw : Z),
    limit_set (Spider.total_items_limit self) = false ->
    Request.meta request = Some p ->
    int_param p "start" 0 = Ok start ->
    int_param p "draw" 1 = Ok draw ->
    Z.max 1 (ceil_div (total - start) items_per_page_ajax) = Z.of_nat n ->
    forall fuel, (n <= fuel)%nat ->
    exists requests items self',
      crawl lib server fuel self [request] = Some (requests, items, self')
      /\ List.length requests = n.
Proof.
  unfold ceil_div, items_per_page_ajax.
  induction n as [|n IH]; intros self request p start draw Hu Hm Hs Hd Hn fuel Hf; [lia|].
  destruct fuel as [|fuel]; [lia|].
  destruct (parse_served self request p start draw Hu Hm Hs Hd)
    as (ys & e & self' & Hp & Hu' & Hq).
  simpl crawl. rewrite Hp, Hq. unfold items_per_page_ajax.
  destruct (Z.ltb_spec (start + 100) total) as [Hlt|Hge].
  - destruct (next_params_read p (start + 100) (draw + 1)) as (Hs' & Hd' & _).
    assert (Hdiv : (total - (start + 100) + 100 - 1) / 100
                   = (total - start + 100 - 1) / 100 - 1).
    { replace (total - (start + 100) + 100 - 1) with (total - start + 100 - 1 + (-1) * 100)
        by lia.
      now rewrite Z.div_add by lia. }
    assert (Hq1 : 1 <= (total - (start + 100) + 100 - 1) / 100).
    { apply Z.div_le_lower_bound; lia. }
    set (next := Py.store "start" (PyStr.of_Z (start + 100))
                   (Py.store "draw" (PyStr.of_Z (draw + 1)) p)) in *.
    set (rq := Request.mk (ajax_url ++ "?" ++ query_string next)
                 (Request.headers request) (Some next)).
    destruct (IH self' rq next (start + 100) (draw + 1) Hu' eq_refl Hs' Hd'
                ltac:(lia) fuel ltac:(lia))
      as (requests & items & s & Hc & Hl).
    simpl app. rewrite Hc. eexists _, _, _. split; [reflexivity|]. simpl. now rewrite Hl.
  - assert (Hq1 : (total - start + 100 - 1) / 100 < 2).
    { apply Z.div_lt_upper_bound; lia. }
    simpl app. rewrite crawl_nil. eexists _, _, _. split; [reflexivity|]. simpl. lia.
Qed.

End Walk.




(** * Further properties of the spider *)


(** ** What a page yields *)

Lemma next_request_built (self : Spider.t) (response : Response.t) (page : json)
    (request : Request.t) :
  snd (get_next_page_request self response page) = Ok (Some request) ->
  (exists p, Request.meta request = Some p
             /\ Request.url request = ajax_url ++ "?" ++ query_string p)
  /\ Request.headers request = Request.headers (Response.request response).
Proof.
  unfold get_next_page_request.
  destruct (Py.get page "recordsFiltered" (JInt 0)) as [total|]; simpl; [|discriminate].
  destruct (int_param _ "start" 0) as [start|]; simpl; [|discriminate].
  destruct (Py.int_lt _ total) as [[]|]; simpl; try discriminate.
  destruct (Response.meta response) as [p|]; simpl; [|discriminate].
  destruct (int_param p "draw" 1) as [draw|]; simpl; [|discriminate].
  intros [= <-]. simpl. eauto.
Qed.

(** The yields of [parse] are items, followed at most by what
    [get_next_page_request] returned; when [parse] raises, by nothing. *)
Lemma parse_structure (lib : Library) (self : Spider.t) (response : Response.t) :
  exists items,
    let '(ys, e, _) := parse lib self response in
    ys = map YItem items
    \/ (ys = (map YItem items ++ [YNone])%list /\ e = Returned)
    \/ (exists request s page,
          ys = (map YItem items ++ [YRequest request])%list
          /\ e = Returned
          /\ snd (get_next_page_request s response page) = Ok (Some request)).
Proof.
  unfold parse.
  destruct (json_loads lib (Response.text response)) as [page|]; [|exists []; now left].
  destruct (records_of_page page) as [records|]; [|exists []; now left].
  pose proof (parse_loop_shape lib response records self) as Hs.
  destruct (parse_loop lib self response records) as [[ys e] s].
  destruct Hs as [Hs _]. exists (items_of ys).
  destruct e; try (now left).
  destruct (negb _ || _); [|now left].
  destruct (get_next_page_request s response page) as [s' [[rq|]|ex]] eqn:En.
  - right. right. exists rq, s, page. rewrite En. now rewrite <- Hs.
  - right. left. now rewrite <- Hs.
  - now left.
Qed.

(** X3.  [parse] yields the items of the page first and then at most one
    more thing, the next request or the null value that stands for its
    absence: never two requests, never a request before an item.  When
    it raises, only the items read so far have been yielded. *)
Theorem parse_yields_items_then_next (lib : Library) (self : Spider.t)
    (response : Response.t) :
  let '(ys, e, _) := parse lib self response in
  exists tail,
    ys = (map YItem (items_of ys) ++ tail)%list
    /\ (tail = [] \/ tail = [YNone] \/ exists request, tail = [YRequest request])
    /\ (e <> Returned -> tail = [])
    /\ (List.length (requests_of ys) <= 1)%nat.
Proof.
  destruct (parse_structure lib self response) as [items H].
  destruct (parse lib self response) as [[ys e] s].
  destruct H as [->|[[-> ->]|(rq & s0 & page & -> & -> & _)]].
  - exists []. rewrite items_of_items, requests_of_items, List.app_nil_r. simpl. auto.
  - exists [YNone].
    rewrite items_of_app, items_of_items, requests_of_app, requests_of_items.
    simpl. rewrite List.app_nil_r. repeat split; auto. congruence.
  - exists [YRequest rq].
    rewrite items_of_app, items_of_items, requests_of_app, requests_of_items.
    simpl. rewrite List.app_nil_r. repeat split; eauto. congruence.
Qed.

(** X4.  The request [parse] yields at the end of a page, if it yields
    one, carries its parameters in its meta, was built with the listing
    endpoint followed by [?] and the query string of these parameters as
    its URL argument, and with the headers of the request that the
    response answers. *)
Theorem parse_request_carries_its_parameters (lib : Library) (self : Spider.t)
    (response : Response.t) :
  Forall
    (fun request =>
       (exists p, Request.meta request = Some p
                  /\ Request.url request = ajax_url ++ "?" ++ query_string p)
       /\ Request.headers request = Request.headers (Response.request response))
    (requests_of (fst (fst (parse lib self response)))).
Proof.
  destruct (parse_structure lib self response) as [items H].
  destruct (parse lib self response) as [[ys e] s]. simpl.
  destruct H as [->|[[-> ->]|(rq & s0 & page & -> & -> & Hn)]].
  - rewrite requests_of_items. constructor.
  - rewrite requests_of_app, requests_of_items. constructor.
  - rewrite requests_of_app, requests_of_items. simpl. constructor; [|constructor].
    exact (next_request_built _ _ _ _ Hn).
Qed.

(** ** The count and the limit *)

Lemma parse_loop_bound (lib : Library) (response : Response.t) (records : list json) :
  forall self : Spider.t,
    let '(ys, e, self') := parse_loop lib self response records in
    Spider.items_processed_count self <= Spider.items_processed_count self'
    /\ Z.of_nat (List.length (items_of ys))
       <= Spider.items_processed_count self' - Spider.items_processed_count self
    /\ (forall limit,
          Spider.total_items_limit self = Some limit -> limit <> 0 ->
          Spider.items_processed_count self'
          <= Z.max (Spider.items_processed_count self) limit)
    /\ (e = Exhausted ->
        Spider.items_processed_count self'
        = Spider.items_processed_count self + Z.of_nat (List.length records)).
Proof.
  induction records as [|r rest IH]; intros self.
  - simpl. repeat split; intros; lia.
  - simpl parse_loop. destruct (limit_reached self) eqn:Hr.
    + unfold Spider.info. simpl. repeat split; intros; try discriminate; lia.
    + assert (Hroom : forall limit,
                 Spider.total_items_limit self = Some limit -> limit <> 0 ->
                 Spider.items_processed_count self + 1 <= limit).
      { intros limit Hl Hz. unfold limit_reached, limit_set in Hr. rewrite Hl in Hr.
        destruct (Z.eqb_spec limit 0); [contradiction|]. simpl in Hr.
        apply Z.leb_gt in Hr. lia. }
      specialize (IH (Spider.count_one self)).
      destruct (create_item_from_ajax lib (Spider.count_one self) r response)
        as [[item|]|e].
      * destruct (parse_loop lib (Spider.count_one self) response rest) as [[ys e] s].
        destruct IH as (H1 & H2 & H3 & H4). simpl in *.
        repeat split; try lia.
        -- intros limit Hl Hz. specialize (H3 limit Hl Hz). specialize (Hroom limit Hl Hz). lia.
        -- intros He. rewrite (H4 He). lia.
      * destruct (parse_loop lib (Spider.count_one self) response rest) as [[ys e] s].
        destruct IH as (H1 & H2 & H3 & H4). simpl in *.
        repeat split; try lia.
        -- intros limit Hl Hz. specialize (H3 limit Hl Hz). specialize (Hroom limit Hl Hz). lia.
        -- intros He. rewrite (H4 He). lia.
      * simpl. repeat split; intros; try discriminate; try lia.
        match goal with
        | Hl : Spider.total_items_limit self = Some ?l, Hz : ?l <> 0 |- _ =>
            specialize (Hroom l Hl Hz); lia
        end.
Qed.

Lemma parse_bound (lib : Library) (self : Spider.t) (response : Response.t) :
  let '(ys, _, self') := parse lib self response in
  Spider.items_processed_count self <= Spider.items_processed_count self'
  /\ Z.of_nat (List.length (items_of ys))
     <= Spider.items_processed_count self' - Spider.items_processed_count self
  /\ (forall limit,
        Spider.total_items_limit self = Some limit -> limit <> 0 ->
        Spider.items_processed_count self'
        <= Z.max (Spider.items_processed_count self) limit)
  /\ Spider.total_items_limit self' = Spider.total_items_limit self.
Proof.
  pose proof (parse_limit lib response self) as Hlim.
  unfold parse in *.
  destruct (json_loads lib (Response.text response)) as [page|].
  2:{ simpl. repeat split; intros; lia. }
  destruct (records_of_page page) as [records|].
  2:{ simpl. repeat split; intros; lia. }
  pose proof (parse_loop_bound lib response records self) as Hb.
  destruct (parse_loop lib self response records) as [[ys e] s].
  destruct Hb as (H1 & H2 & H3 & _).
  destruct e; try (repeat split; assumption).
  destruct (negb _ || _); [|repeat split; assumption].
  pose proof (next_page_state s response page) as [Hc _].
  destruct (get_next_page_request s response page) as [s' [[rq|]|ex]]; simpl in *;
    rewrite ?items_of_app, ?length_app; simpl; rewrite Hc;
    (repeat split; [lia | lia | exact H3 | exact Hlim]).
Qed.

Lemma crawl_bound (lib : Library) (server : Request.t -> string) (fuel : nat) :
  forall (self : Spider.t) (queue : list Request.t),
    match crawl lib server fuel self queue with
    | Some (_, items, self') =>
        Spider.items_processed_count self <= Spider.items_processed_count self'
        /\ Z.of_nat (List.length items)
           <= Spider.items_processed_count self' - Spider.items_processed_count self
        /\ (forall limit,
              Spider.total_items_limit self = Some limit -> limit <> 0 ->
              Spider.items_processed_count self'
              <= Z.max (Spider.items_processed_count self) limit)
    | None => True
    end.
Proof.
  induction fuel as [|fuel IH]; intros self queue.
  - destruct queue; simpl; [|exact I]. repeat split; intros; lia.
  - destruct queue as [|request rest]; simpl.
    { repeat split; intros; lia. }
    set (response := Response.mk (Request.url request) (server request) request).
    pose proof (parse_bound lib self response) as Hp.
    destruct (parse lib self response) as [[ys e] s].
    destruct Hp as (H1 & H2 & H3 & Hl).
    specialize (IH s (rest ++ requests_of ys)%list).
    destruct (crawl lib server fuel s _) as [[[rqs its] s']|]; [|exact I].
    destruct IH as (I1 & I2 & I3).
    rewrite length_app. repeat split; try lia.
    intros limit Hlim Hz. rewrite <- Hl in Hlim.
    specialize (I3 limit Hlim Hz). rewrite Hl in Hlim. specialize (H3 limit Hlim Hz). lia.
Qed.

(** X5.  A run never goes over its limit.  With a limit L other than
    zero, the processed count ends at most at L (or where it started, if
    that was higher), and the items of the whole run are at most the
    room that was left under the limit, whatever the server sends. *)
Theorem run_respects_limit (lib : Library) (server : Request.t -> string) (fuel : nat)
    (self : Spider.t) (limit : Z) :
  Spider.total_items_limit self = Some limit ->
  limit <> 0 ->
  match run lib server fuel self with
  | Some (_, items, self') =>
      Z.of_nat (List.length items) <= Z.max 0 (limit - Spider.items_processed_count self)
      /\ Spider.items_processed_count self'
         <= Z.max (Spider.items_processed_count self) limit
  | None => True
  end.
Proof.
  intros Hl Hz. unfold run.
  pose proof (crawl_bound lib server fuel self (start_requests self)) as H.
  destruct (crawl lib server fuel self (start_requests self)) as [[[rqs its] s']|];
    [|exact I].
  destruct H as (H1 & H2 & H3). specialize (H3 limit Hl Hz). lia.
Qed.

Lemma run_respects_limit_witness :
  exists requests items self',
    run library (fun _ => long_listing) 3 (spider_limit 1) = Some (requests, items, self')
    /\ Z.of_nat (List.length items) <= 1
    /\ Spider.items_processed_count self' <= 1.
Proof.
  generalize (run_respects_limit library (fun _ => long_listing) 3 (spider_limit 1) 1
                eq_refl ltac:(lia)).
  destruct (run library (fun _ => long_listing) 3 (spider_limit 1))
    as [[[requests items] self']|] eqn:E; [|vm_compute in E; discriminate E].
  intros H. exists requests, items, self'. split; [reflexivity | exact H].
Defined.

Lemma parse_limit_reached (lib : Library) (self : Spider.t) (response : Response.t) :
  limit_reached self = true ->
  exists e self',
    parse lib self response = ([], e, self')
    /\ Spider.items_processed_count self' = Spider.items_processed_count self.
Proof.
  intros Hr. unfold parse.
  destruct (json_loads lib (Response.text response)) as [page|]; [|eauto].
  destruct (records_of_page page) as [[|r rest]|]; [| |eauto].
  - simpl parse_loop. cbv iota beta.
    assert (Hc : negb (limit_set (Spider.total_items_limit self)) || below_limit self = false).
    { unfold limit_reached, below_limit in *.
      destruct (Spider.total_items_limit self) as [limit|]; [|discriminate].
      apply andb_true_iff in Hr. destruct Hr as [-> Hle]. simpl.
      apply Z.leb_le in Hle. apply Z.ltb_ge. lia. }
    rewrite Hc. eauto.
  - simpl parse_loop. rewrite Hr. eexists _, _. split; [reflexivity|]. reflexivity.
Qed.

(** X6.  Once the limit is reached nothing more is read.  A run of a
    spider whose count is at or over its limit (a negative limit is one
    from the start) issues its first request and stops there: it yields
    no item and no further request, whatever the page holds, and the
    count stays where it was. *)
Theorem run_at_limit (lib : Library) (server : Request.t -> string) (fuel : nat)
    (self : Spider.t) :
  limit_reached self = true ->
  exists self',
    run lib server (S fuel) self = Some (start_requests self, [], self')
    /\ Spider.items_processed_count self' = Spider.items_processed_count self.
Proof.
  intros Hr. unfold run, start_requests. simpl crawl.
  match goal with
  | |- context [parse lib self ?r] =>
      destruct (parse_limit_reached lib self r Hr) as (e & self' & -> & Hc)
  end.
  simpl. rewrite crawl_nil. exists self'. split; [reflexivity | exact Hc].
Qed.

Lemma run_at_limit_witness :
  exists self',
    run library (fun _ => long_listing) 1 (spider_limit (-5))
    = Some (start_requests (spider_limit (-5)), [], self')
    /\ Spider.items_processed_count self' = 0.
Proof.
  apply (run_at_limit library (fun _ => long_listing) 0 (spider_limit (-5))).
  reflexivity.
Defined.

(** ** A record that cannot be read *)

(** X7.  A record that is not valid stops the page where it stands.  The
    items of the records before it have been yielded, the count includes
    the record itself, [parse] ends with an [AttributeError] or a
    [TypeError], the records after it are not read and no next page is
    asked for. *)
Theorem parse_stops_at_bad_record (lib : Library) (self : Spider.t)
    (response : Response.t) (page : json) (good : list json) (bad : json)
    (rest : list json) :
  json_loads lib (Response.text response) = Some page ->
  records_of_page page = Ok (good ++ bad :: rest)%list ->
  forallb valid_record good = true ->
  valid_record bad = false ->
  (List.length good < reach self (List.length (good ++ bad :: rest)))%nat ->
  exists items e self',
    parse lib self response = (map YItem items, Raised e, self')
    /\ List.length items = List.length (coded good)
    /\ (e = AttributeError \/ e = TypeError)
    /\ Spider.items_processed_count self'
       = Spider.items_processed_count self + Z.of_nat (List.length good) + 1.
Proof.
  intros Hj Hr Hg Hb Hn.
  assert (Hloop : exists items e self',
             parse_loop lib self response (good ++ bad :: rest)
             = (map YItem items, Failed e, self')
             /\ List.length items = List.length (coded good)
             /\ (e = AttributeError \/ e = TypeError)
             /\ Spider.items_processed_count self'
                = Spider.items_processed_count self + Z.of_nat (List.length good) + 1).
  { clear Hj Hr. revert self Hn.
    induction good as [|g good IH]; intros self Hn.
    - simpl app in *. simpl List.length in Hn.
      destruct (limit_reached self) eqn:Hlr; [rewrite (reach_stop _ _ Hlr) in Hn; lia|].
      simpl parse_loop. rewrite Hlr.
      destruct (create_item_from_ajax lib (Spider.count_one self) bad response)
        as [o|e] eqn:Ec.
      + apply create_item_ok_valid in Ec. destruct Ec as [Ec _]. congruence.
      + exists [], e, (Spider.count_one self). simpl.
        repeat split; [now apply create_item_raise in Ec | lia].
    - simpl in Hg. apply andb_true_iff in Hg. destruct Hg as [Hg1 Hg].
      simpl app in *. simpl List.length in Hn.
      destruct (limit_reached self) eqn:Hlr; [rewrite (reach_stop _ _ Hlr) in Hn; lia|].
      rewrite (reach_step _ _ Hlr) in Hn.
      destruct (IH Hg (Spider.count_one self) ltac:(lia))
        as (items & e & self' & Hl & Hlen & He & Hc).
      simpl parse_loop. rewrite Hlr.
      pose proof (create_item_valid lib (Spider.count_one self) response g Hg1) as Hi.
      unfold coded in *. simpl filter.
      destruct (has_code g).
      + destruct Hi as [item ->]. rewrite Hl.
        exists (item :: items), e, self'. simpl in *. repeat split; try assumption; lia.
      + rewrite Hi, Hl. exists items, e, self'. simpl in *.
        repeat split; try assumption; lia. }
  destruct Hloop as (items & e & self' & Hl & Hlen & He & Hc).
  exists items, e, self'. unfold parse. rewrite Hj, Hr, Hl. repeat split; assumption.
Qed.

Lemma parse_stops_at_bad_record_witness :
  exists items self',
    parse library spider0 (respond broken_page)
    = (map YItem items, Raised AttributeError, self')
    /\ List.length items = 1%nat
    /\ Spider.items_processed_count self' = 2.
Proof.
  destruct (parse_stops_at_bad_record library spider0 (respond broken_page) broken_json
              broken_good broken_bad broken_rest
              ltac:(vm_compute; reflexivity) ltac:(vm_compute; reflexivity)
              ltac:(reflexivity) ltac:(reflexivity) ltac:(vm_compute; lia))
    as (items & e & self' & Hp & Hl & He & Hc).
  exists items, self'.
  assert (e = AttributeError) as ->.
  { generalize Hp. vm_compute. intros [= _ <- _]. reflexivity. }
  repeat split; assumption.
Defined.

(** ** Which records become items *)

Lemma built_item_code (lib : Library) (self : Spider.t) (record : json)
    (response : Response.t) (item : ProposicaoItem.t) :
  create_item_from_ajax lib self record response = Ok (Some item) ->
  item_code item = record_code record.
Proof.
  intros H. pose proof (create_item_ok_valid lib self response record _ H) as [_ Hc].
  assert (Hhas : has_code record = true) by (apply Hc; discriminate).
  apply create_item_inv in H.
  destruct H as (codigo & nato & Hg & _ & _ & _ & _ & _ & Hm & _).
  unfold item_code. rewrite Hm. simpl.
  destruct record as [| | | | |fields]; try discriminate Hhas.
  rewrite get_dict in Hg. simpl in *.
  destruct (Py.lookup "codigo" fields); [congruence | discriminate].
Qed.

Lemma parse_loop_codes (lib : Library) (response : Response.t) (records : list json) :
  forall self : Spider.t,
    let n := reach self (List.length records) in
    forallb valid_record (firstn n records) = true ->
    map item_code (items_of (fst (fst (parse_loop lib self response records))))
    = map record_code (coded (firstn n records)).
Proof.
  induction records as [|r rest IH]; intros self n Hv.
  - subst n. simpl. now rewrite reach_nil.
  - subst n. simpl List.length in *. simpl parse_loop.
    destruct (limit_reached self) eqn:Hr.
    + now rewrite (reach_stop _ _ Hr).
    + rewrite (reach_step _ _ Hr) in *. simpl firstn in *. simpl in Hv.
      apply andb_true_iff in Hv. destruct Hv as [Hr1 Hrest].
      specialize (IH (Spider.count_one self) Hrest).
      pose proof (create_item_valid lib (Spider.count_one self) response r Hr1) as Hi.
      unfold coded in *. simpl filter.
      destruct (has_code r).
      * destruct Hi as [item Hi]. rewrite Hi.
        destruct (parse_loop lib (Spider.count_one self) response rest) as [[ys e] s].
        simpl in *. rewrite IH. f_equal. eapply built_item_code; eauto.
      * rewrite Hi. exact IH.
Qed.

(** X8.  The items of a page follow its records: the process codes the
    items carry are, in the order of the page, the codes of the records
    the loop reads that have one.  No record is turned into two items,
    none is reordered, and none that carries a code is left out. *)
Theorem items_follow_records (lib : Library) (self : Spider.t) (response : Response.t)
    (page : json) (records : list json) :
  json_loads lib (Response.text response) = Some page ->
  records_of_page page = Ok records ->
  forallb valid_record (firstn (reach self (List.length records)) records) = true ->
  map item_code (items_of (fst (fst (parse lib self response))))
  = map record_code (coded (firstn (reach self (List.length records)) records)).
Proof.
  intros Hj Hr Hv.
  pose proof (parse_loop_codes lib response records self Hv) as Hc.
  unfold parse. rewrite Hj, Hr.
  destruct (parse_loop lib self response records) as [[ys e] s]. simpl in Hc.
  destruct e; simpl; try exact Hc.
  destruct (negb _ || _); [|exact Hc].
  destruct (get_next_page_request s response page) as [s' [[rq|]|ex]]; simpl;
    rewrite ?items_of_app; simpl items_of; rewrite ?List.app_nil_r; exact Hc.
Qed.

Lemma items_follow_records_witness :
  map item_code (items_of (fst (fst (parse library spider0 (respond mixed_page)))))
  = [Some (JStr "X2")].
Proof.
  apply (items_follow_records library spider0 (respond mixed_page) mixed_json mixed_records);
    vm_compute; reflexivity.
Defined.

(** ** The offsets of a walk *)

Section Offsets.

Variable lib : Library.
Variable server : Request.t -> string.
Variable total : Z.
Hypothesis served : forall request, serves lib total (server request) = true.

Lemma crawl_offsets (n : nat) :
  forall (self : Spider.t) (request : Request.t) (p : params) (start draw : Z),
    limit_set (Spider.total_items_limit self) = false ->
    Request.meta request = Some p ->
    int_param p "start" 0 = Ok start ->
    int_param p "draw" 1 = Ok draw ->
    Z.max 1 (ceil_div (total - start) items_per_page_ajax) = Z.of_nat n ->
    forall fuel, (n <= fuel)%nat ->
    exists requests items self',
      crawl lib server fuel self [request] = Some (requests, items, self')
      /\ map offsets requests
         = map (fun i => (Ok (start + items_per_page_ajax * Z.of_nat i),
                          Ok (draw + Z.of_nat i)))
             (seq 0 n).
Proof.
  unfold ceil_div, items_per_page_ajax.
  induction n as [|n IH]; intros self request p start draw Hu Hm Hs Hd Hn fuel Hf; [lia|].
  destruct fuel as [|fuel]; [lia|].
  destruct (parse_served lib server total served self request p start draw Hu Hm Hs Hd)
    as (ys & e & self' & Hp & Hu' & Hq).
  assert (Hhead : offsets request = (Ok (start + 100 * Z.of_nat 0), Ok (draw + Z.of_nat 0))).
  { unfold offsets. rewrite Hm, Hs, Hd. simpl. now rewrite Z.add_0_r, Z.add_0_r. }
  simpl crawl. rewrite Hp, Hq. unfold items_per_page_ajax.
  destruct (Z.ltb_spec (start + 100) total) as [Hlt|Hge].
  - destruct (next_params_read p (start + 100) (draw + 1)) as (Hs' & Hd' & _).
    assert (Hdiv : (total - (start + 100) + 100 - 1) / 100
                   = (total - start + 100 - 1) / 100 - 1).
    { replace (total - (start + 100) + 100 - 1) with (total - start + 100 - 1 + (-1) * 100)
        by lia.
      now rewrite Z.div_add by lia. }
    assert (Hq1 : 1 <= (total - (start + 100) + 100 - 1) / 100).
    { apply Z.div_le_lower_bound; lia. }
    set (next := Py.store "start" (PyStr.of_Z (start + 100))
                   (Py.store "draw" (PyStr.of_Z (draw + 1)) p)) in *.
    set (rq := Request.mk (ajax_url ++ "?" ++ query_string next)
                 (Request.headers request) (Some next)).
    destruct (IH self' rq next (start + 100) (draw + 1) Hu' eq_refl Hs' Hd'
                ltac:(lia) fuel ltac:(lia))
      as (requests & items & s & Hc & Ho).
    simpl app. rewrite Hc. eexists _, _, _. split; [reflexivity|].
    cbn [map seq]. rewrite Hhead, Ho. f_equal.
    rewrite <- seq_shift, map_map. apply map_ext. intros i.
    replace (start + 100 * Z.of_nat (S i)) with (start + 100 + 100 * Z.of_nat i) by lia.
    replace (draw + Z.of_nat (S i)) with (draw + 1 + Z.of_nat i) by lia.
    reflexivity.
  - assert (Hq1 : (total - start + 100 - 1) / 100 < 2).
    { apply Z.div_lt_upper_bound; lia. }
    simpl app. rewrite crawl_nil. eexists _, _, _. split; [reflexivity|].
    assert (n = 0%nat) as -> by lia. cbn [map seq]. now rewrite Hhead.
Qed.

End Offsets.



(** ** A walk under a limit *)

Section Limited.

Variable lib : Library.
Variable server : Request.t -> string.
Hypothesis pages : never_empty lib server.

(** Under a limit, a page that asks for another one has raised the
    count, and left it under the limit. *)
Lemma parse_progress (self : Spider.t) (request : Request.t) (limit : Z) :
  Spider.total_items_limit self = Some limit ->
  limit <> 0 ->
  let '(ys, _, self') :=
    parse lib self (Response.mk (Request.url request) (server request) request) in
  requests_of ys = []
  \/ ((exists next, requests_of ys = [next])
      /\ Spider.items_processed_count self + 1 <= Spider.items_processed_count self'
      /\ Spider.items_processed_count self' < limit).
Proof.
  intros Hl Hz. unfold parse. cbn [Response.text].
  destruct (json_loads lib (server request)) as [page|] eqn:Hj; [|now left].
  destruct (records_of_page page) as [records|] eqn:Hr; [|now left].
  pose proof (pages request page records Hj Hr) as Hne.
  pose proof (parse_loop_bound lib
                (Response.mk (Request.url request) (server request) request)
                records self) as Hb.
  pose proof (parse_loop_shape lib
                (Response.mk (Request.url request) (server request) request)
                records self) as Hs.
  pose proof (parse_loop_limit lib
                (Response.mk (Request.url request) (server request) request)
                records self) as Hlim.
  destruct (parse_loop lib self _ records) as [[ys e] s].
  destruct Hb as (_ & _ & _ & Hex). destruct Hs as [Hs _]. simpl in Hlim.
  destruct e; try (left; rewrite Hs; apply requests_of_items).
  specialize (Hex eq_refl).
  unfold below_limit, limit_set. rewrite Hlim, Hl.
  destruct (Z.eqb_spec limit 0); [contradiction|]. simpl.
  destruct (Z.ltb_spec (Spider.items_processed_count s) limit) as [Hlt|Hge];
    [|left; rewrite Hs; apply requests_of_items].
  pose proof (next_page_state s (Response.mk (Request.url request) (server request) request)
                page) as [Hc _].
  destruct (get_next_page_request s _ page) as [s' [[rq|]|ex]]; simpl in Hc.
  - right. rewrite requests_of_app, Hs, requests_of_items. simpl.
    split; [eauto|]. rewrite Hc.
    destruct records; [contradiction|]. simpl List.length in Hex. lia.
  - left. rewrite requests_of_app, Hs, requests_of_items. reflexivity.
  - left. rewrite Hs. apply requests_of_items.
Qed.

Lemma crawl_limited (limit : Z) (fuel : nat) :
  forall (self : Spider.t) (request : Request.t),
    Spider.total_items_limit self = Some limit ->
    limit <> 0 ->
    Z.max 1 (limit - Spider.items_processed_count self) <= Z.of_nat fuel ->
    exists requests items self',
      crawl lib server fuel self [request] = Some (requests, items, self')
      /\ Z.of_nat (List.length requests)
         <= Z.max 1 (limit - Spider.items_processed_count self).
Proof.
  induction fuel as [|fuel IH]; intros self request Hl Hz Hf; [lia|].
  pose proof (parse_progress self request limit Hl Hz) as Hp.
  pose proof (parse_limit lib (Response.mk (Request.url request) (server request) request)
                self) as Hlim.
  simpl crawl.
  destruct (parse lib self _) as [[ys e] s]. simpl in Hlim.
  destruct Hp as [->|([next ->] & Hup & Hlt)].
  - simpl app. rewrite crawl_nil. eexists _, _, _. split; [reflexivity|]. simpl. lia.
  - simpl app.
    destruct (IH s next ltac:(congruence) Hz ltac:(lia))
      as (requests & items & s' & Hc & Hn).
    rewrite Hc. eexists _, _, _. split; [reflexivity|]. simpl List.length. lia.
Qed.

End Limited.

(** X10.  Under a limit L other than zero a walk ends, however many
    records the server says there are, provided no page comes back
    without records: it takes at most as many requests as there was room
    under the limit, and at least the one that starts it. *)
Theorem run_ends_under_limit (lib : Library) (server : Request.t -> string)
    (self : Spider.t) (limit : Z) (fuel : nat) :
  never_empty lib server ->
  Spider.total_items_limit self = Some limit ->
  limit <> 0 ->
  Z.max 1 (limit - Spider.items_processed_count self) <= Z.of_nat fuel ->
  exists requests items self',
    run lib server fuel self = Some (requests, items, self')
    /\ 1 <= Z.of_nat (List.length requests)
       <= Z.max 1 (limit - Spider.items_processed_count self).
Proof.
  intros Hp Hl Hz Hf. unfold run, start_requests.
  destruct (crawl_limited lib server Hp limit fuel self
              (Request.mk (ajax_url ++ "?" ++ query_string (first_params self))
                 listing_headers (Some (first_params self))) Hl Hz Hf)
    as (requests & items & self' & Hc & Hn).
  exists requests, items, self'. split; [exact Hc|]. split; [|exact Hn].
  destruct fuel as [|fuel]; [lia|]. simpl crawl in Hc.
  destruct (parse lib self _) as [[ys e] s].
  destruct (crawl lib server fuel s _) as [[[rqs its] s']|]; [|discriminate Hc].
  injection Hc as <- _ _. simpl List.length. lia.
Qed.

Lemma long_listing_never_empty : never_empty library (fun _ => long_listing).
Proof.
  intros request page records Hj Hr.
  change (json_loads library long_listing = Some page) in Hj.
  assert (E : json_loads library long_listing = Some long_json) by (vm_compute; reflexivity).
  rewrite E in Hj. injection Hj as <-.
  vm_compute in Hr. injection Hr as <-. discriminate.
Qed.

Lemma run_ends_under_limit_witness :
  exists requests items self',
    run library (fun _ => long_listing) 3 (spider_limit 3) = Some (requests, items, self')
    /\ 1 <= Z.of_nat (List.length requests) <= 3.
Proof.
  apply (run_ends_under_limit library (fun _ => long_listing) (spider_limit 3) 3 3).
  - exact long_listing_never_empty.
  - reflexivity.
  - lia.
  - vm_compute. discriminate.
Defined.

(** ** The first request and the limit argument *)

Lemma lookup_put_other (k k' : string) (a : option string) (p : params) :
  k' <> k -> Py.lookup k' (put_if_given k a p) = Py.lookup k' p.
Proof.
  intros H. unfold put_if_given.
  destruct a as [d|]; [|reflexivity].
  destruct (String.eqb d EmptyString); [reflexivity | now apply lookup_store_other].
Qed.

Lemma lookup_put_same (k : string) (a : option string) (p : params) :
  Py.lookup k p = None ->
  Py.lookup k (put_if_given k a p)
  = match a with
    | Some d => if String.eqb d EmptyString then None else Some d
    | None => None
    end.
Proof.
  intros H. unfold put_if_given.
  destruct a as [d|]; [|exact H].
  destruct (String.eqb d EmptyString); [exact H | apply lookup_store_same].
Qed.

(** X11.  A run starts with one request, for offset 0 with draw 1 and a
    page of 100.  A date bound is sent exactly when it was given and is
    not empty, the start date as [autuacaoI] and the end date as
    [autuacaoF], each with the text it was given; the dates leave every
    other parameter as it is. *)
Theorem first_request_parameters (self : Spider.t) :
  exists p,
    start_requests self
    = [Request.mk (ajax_url ++ "?" ++ query_string p) listing_headers (Some p)]
    /\ Py.lookup "start" p = Some "0"
    /\ Py.lookup "draw" p = Some "1"
    /\ Py.lookup "length" p = Some "100"
    /\ Py.lookup "autuacaoI" p
       = match Spider.data_inicio self with
         | Some d => if String.eqb d EmptyString then None else Some d
         | None => None
         end
    /\ Py.lookup "autuacaoF" p
       = match Spider.data_fim self with
         | Some d => if String.eqb d EmptyString then None else Some d
         | None => None
         end
    /\ (forall k, k <> "autuacaoI" -> k <> "autuacaoF" ->
        Py.lookup k p = Py.lookup k (first_params spider0)).
Proof.
  exists (first_params self). unfold start_requests, first_params.
  split; [reflexivity|].
  repeat split; try (rewrite !lookup_put_other by discriminate; reflexivity).
  - rewrite lookup_put_other by discriminate. now apply lookup_put_same.
  - rewrite lookup_put_same; [reflexivity|].
    now rewrite lookup_put_other by discriminate.
  - intros k H1 H2. now rewrite !lookup_put_other by assumption.
Qed.

(** X13.  The template of the parameters is guarded where the offset is
    read and not where it is copied.  For a response whose request
    carries no template the offset counts as 0: when the filtered total
    is at most one page the method returns no request, and when it is
    more the method raises an [AttributeError] instead of asking for the
    second page. *)
Theorem next_page_without_template (self : Spider.t) (response : Response.t)
    (data_json : json) (total : Z) :
  Response.meta response = None ->
  Py.get data_json "recordsFiltered" (JInt 0) = Ok (JInt total) ->
  get_next_page_request self response data_json
  = (self, if items_per_page_ajax <? total then Raise AttributeError else Ok None).
Proof.
  intros Hm Ht. unfold get_next_page_request.
  rewrite Ht, Hm. simpl.
  now destruct (items_per_page_ajax <? total).
Qed.

Lemma next_page_without_template_witness :
  get_next_page_request spider0 bare_response (JDict [("recordsFiltered", JInt 150)])
  = (spider0, Raise AttributeError).
Proof.
  apply (next_page_without_template spider0 bare_response
           (JDict [("recordsFiltered", JInt 150)]) 150); reflexivity.
Defined.

(** ** The normalized type *)

Lemma lower_char_not_upper (c : ascii) : is_upper (PyStr.lower_char c) = false.
Proof. destruct c as [[] [] [] [] [] [] [] []]; reflexivity. Qed.

Lemma hyphenated_chars (u : string) (c : ascii) :
  (forall a, In a (list_ascii_of_string u) -> is_upper a = false) ->
  In c (list_ascii_of_string (PyStr.replace " " "-" u)) ->
  c <> " "%char /\ is_upper c = false.
Proof.
  induction u as [|a r IH]; simpl; [tauto|]. intros Hu.
  destruct (Ascii.eqb_spec a " ") as [E|E]; simpl.
  - intros [<-|H]; [split; [discriminate | reflexivity] | apply IH; auto].
  - intros [<-|H]; [split; [exact E | apply Hu; auto] | apply IH; auto].
Qed.

Lemma lower_not_upper (s : string) (c : ascii) :
  In c (list_ascii_of_string (PyStr.lower s)) -> is_upper c = false.
Proof.
  induction s as [|a r IH]; simpl; [tauto|].
  intros [<-|H]; [apply lower_char_not_upper | now apply IH].
Qed.

Lemma lower_not_empty (s : string) : s <> EmptyString -> PyStr.lower s <> EmptyString.
Proof. destruct s; [contradiction | discriminate]. Qed.

(** X14.  The normalized type that goes into the storage path is never
    empty and holds neither a space nor an upper-case ASCII letter,
    whatever the type is, [str.lower] returning no upper-case ASCII
    letter and no empty text for a text that is not empty. *)
Theorem normalized_type_is_clean (lib : Library) (t : string) :
  (forall s c, In c (list_ascii_of_string (str_lower lib s)) -> is_upper c = false) ->
  (forall s, s <> EmptyString -> str_lower lib s <> EmptyString) ->
  normalized_type lib t <> EmptyString
  /\ forall c, In c (list_ascii_of_string (normalized_type lib t)) ->
               c <> " "%char /\ is_upper c = false.
Proof.
  intros Hup Hne. unfold normalized_type.
  destruct (String.eqb_spec t EmptyString) as [->|Ht].
  - split; [discriminate|]. intros c H. simpl in H.
    repeat (destruct H as [<-|H]; [split; [discriminate | reflexivity]|]). contradiction.
  - split; [|intros c; apply hyphenated_chars; apply Hup].
    specialize (Hne t Ht).
    destruct (str_lower lib t) as [|a r]; [contradiction|]. simpl.
    destruct (Ascii.eqb a " "); discriminate.
Qed.

Lemma normalized_type_is_clean_witness :
  normalized_type library "Pl X" <> EmptyString
  /\ forall c, In c (list_ascii_of_string (normalized_type library "Pl X")) ->
               c <> " "%char /\ is_upper c = false.
Proof.
  apply (normalized_type_is_clean library "Pl X").
  - exact lower_not_upper.
  - exact lower_not_empty.
Defined.
